(** * Streamlit_app.py: the form-and-results renderer of the research assistant

    A shallow embedding of [src/Streamlit_app.py].  The script is a sequence
    of Streamlit calls around one blocking call to the research service, so
    it is embedded in a small reader/state/exception monad:

    - the reader part is everything the script receives from outside: the
      widget values of the browser session, the research service, the
      system clock and the interpreter's float printer;
    - the state part is what the script produces: the tree of rendered
      elements, the log of service invocations and the number of clock
      readings taken so far;
    - the exception part is Python's [raise] / [try ... except Exception].

    [main] is the whole page; the module-level [st.set_page_config] call and
    the [if __name__ == "__main__"] guard around [main()] render nothing and
    are left out. *)

From Stdlib Require Import ZArith QArith Qabs List String Ascii Bool Lia.
From Stdlib Require Import DecimalString.
Import ListNotations.
Open Scope string_scope.
Set Warnings "-register-all".

(** ** Python values *)

Module Py.

(** A Python [float]: [Finite q] carries the exact rational value of a
    finite double, the other constructors are the special values. *)
Inductive pyfloat : Type :=
| Finite (q : Q)
| NegZero
| PosInf
| NegInf
| NaN.

(** [relevance_score] is a "number": an [int] or a [float]. *)
Inductive number : Type :=
| Int (z : Z)
| Float (f : pyfloat).

(** [f >= k] for an integer literal [k]; every comparison with NaN is
    false. *)
Definition float_ge (f : pyfloat) (k : Z) : bool :=
  match f with
  | Finite q => Qle_bool (inject_Z k) q
  | NegZero => (k <=? 0)%Z
  | PosInf => true
  | NegInf => false
  | NaN => false
  end.

(** [score >= k]. *)
Definition ge (n : number) (k : Z) : bool :=
  match n with
  | Int z => (k <=? z)%Z
  | Float f => float_ge f k
  end.

(** The exception classes that matter to [except Exception]: the subclasses
    of [Exception] (named), and the classes that derive from [BaseException]
    only.  [RerunException] is what [st.rerun()] raises. *)
Inductive exc_class : Type :=
| ExceptionSubclass (name : string)
| KeyboardInterrupt
| SystemExit
| CancelledError
| RerunException.

Definition isinstance_Exception (c : exc_class) : bool :=
  match c with
  | ExceptionSubclass _ => true
  | _ => false
  end.

(** An exception object: its class and [str(e)]. *)
Record exception : Type := mkException {
  exc_type : exc_class;
  exc_str : string
}.

(** [str(n)] for a natural number (a [len] or an [enumerate] index). *)
Definition str_nat (n : nat) : string :=
  NilZero.string_of_uint (Nat.to_uint n).

(** [str(z)] for an [int]. *)
Definition str_int (z : Z) : string :=
  NilZero.string_of_int (Z.to_int z).

(** [bool(s)] for a [str]: only the empty string is falsy. *)
Definition truthy (s : string) : bool :=
  match s with
  | EmptyString => false
  | String _ _ => true
  end.

(** [sep.join(l)]. *)
Definition join (sep : string) (l : list string) : string :=
  String.concat sep l.

(** The number of tenths [format(x, ".1f")] prints for a magnitude [a >= 0]:
    [10 * a] rounded to the nearest integer, ties to even (the conversion is
    correctly rounded on the exact value of the double). *)
Definition round_tenths (a : Q) : Z :=
  let num := (Qnum a * 10)%Z in
  let den := Zpos (Qden a) in
  let n := (num / den)%Z in
  let r := (num mod den)%Z in
  match (2 * r ?= den)%Z with
  | Lt => n
  | Gt => (n + 1)%Z
  | Eq => if Z.even n then n else (n + 1)%Z
  end.

(** [f"{x:.1f}"] for a finite [x]: sign, integer part, point, one digit.
    A negative value keeps its sign even when it rounds to zero. *)
Definition format_1f (x : Q) : string :=
  let n := round_tenths (Qabs x) in
  (if Qlt_le_dec x 0 then "-" else "")
    ++ str_int (n / 10) ++ "." ++ str_int (n mod 10).

(** Division of [num] by [den > 0], rounded to the nearest integer, ties to
    even. *)
Definition div_half_even (num den : Z) : Z :=
  let n := (num / den)%Z in
  let r := (num mod den)%Z in
  match (2 * r ?= den)%Z with
  | Lt => n
  | Gt => (n + 1)%Z
  | Eq => if Z.even n then n else (n + 1)%Z
  end.

(** The binade of [p / q] for [p, q > 0]: the [e] with
    [2^e <= p / q < 2^(e+1)]. *)
Definition binade (p : Z) (q : positive) : Z :=
  let e0 := (Z.log2 p - Z.log2 (Zpos q))%Z in
  let below :=
    if (0 <=? e0)%Z then (p <? Zpos q * 2 ^ e0)%Z
    else (p * 2 ^ (- e0) <? Zpos q)%Z in
  if below then (e0 - 1)%Z else e0.

(** The exponent of the last place of a double in the binade of [p / q]:
    53 significant bits, and [2^-1074] for the subnormal numbers. *)
Definition quantum (p : Z) (q : positive) : Z :=
  Z.max (binade p q - 52) (-1074).

(** [p / q] in units of its last place, rounded to nearest, ties to even. *)
Definition significand (p : Z) (q : positive) : Z :=
  let s := quantum p q in
  if (0 <=? s)%Z then div_half_even p (Zpos q * 2 ^ s)
  else div_half_even (p * 2 ^ (- s)) (Zpos q).

(** [m * 2^s] *)
Definition scaled (m s : Z) : Q :=
  if (0 <=? s)%Z then inject_Z (m * 2 ^ s)
  else Qmake m (Z.to_pos (2 ^ (- s))).

(** The double nearest to a real number (IEEE 754 binary64, round to
    nearest, ties to even): what every arithmetic operation on floats
    returns for its exact result.  A result of magnitude [2^1024] or more is
    an infinity; an exact zero is [+0.0]. *)
Definition round_double (x : Q) : pyfloat :=
  let p := Z.abs (Qnum x) in
  let q := Qden x in
  let negative := (Qnum x <? 0)%Z in
  if (p =? 0)%Z then Finite 0
  else
    let s := quantum p q in
    let m := significand p q in
    if (m =? 0)%Z then (if negative then NegZero else Finite 0)
    else if (1024 <=? Z.log2 m + s)%Z
         then (if negative then NegInf else PosInf)
         else Finite (if negative then - scaled m s else scaled m s).

(** [x - y] for two finite floats. *)
Definition float_sub (x y : Q) : pyfloat := round_double (x - y).

(** [f"{x:.1f}"] for any float. *)
Definition format_float_1f (f : pyfloat) : string :=
  match f with
  | Finite q => format_1f q
  | NegZero => "-0.0"
  | PosInf => "inf"
  | NegInf => "-inf"
  | NaN => "nan"
  end.

End Py.

Import Py.

(** ** Data model *)

(** [paper.year] is an integer or a string. *)
Inductive year_t : Type :=
| YearInt (y : Z)
| YearStr (y : string).

Definition str_year (y : year_t) : string :=
  match y with
  | YearInt z => str_int z
  | YearStr s => s
  end.

(** The record the research service returns for each paper; the renderer
    only reads it. *)
Record PaperResult : Type := mkPaper {
  title : string;
  authors : list string;
  journal : string;
  year : year_t;
  relevance_score : number;
  relevance_reason : string;
  abstract : string;
  pubmed_url : string
}.

(** ** Rendered output *)

(** The [with ...:] blocks of the script. *)
Inductive context : Type :=
| form (key : string)
| column (i : nat)
| spinner (text : string)
| expander (label : string) (expanded : bool)
| sidebar.

(** One Streamlit call, in the order the script makes them; [With c body]
    is a [with] block together with what was rendered inside it. *)
Inductive element : Type :=
| Title (body : string)
| Write (body : string)
| Header (body : string)
| Markdown (body : string)
| Success (body : string)
| Warning (body : string)
| Info (body : string)
| Error (body : string)
| Divider
| Columns (spec : list Z)
| TextInput (label placeholder help : string)
| Selectbox (label : string) (options : list Z) (index : nat) (help : string)
| FormSubmitButton (label type : string)
| Button (label key : string)
| With (c : context) (body : list element).

(** All elements of a rendering, at every depth, in rendering order. *)
Fixpoint flatten (e : element) : list element :=
  e :: match e with
       | With _ body => flat_map flatten body
       | _ => []
       end.

Definition all_elements (out : list element) : list element :=
  flat_map flatten out.

(** The collapsible sections of a rendering: label and expanded flag. *)
Definition section_of (e : element) : list (string * bool) :=
  match e with
  | With (expander label expanded) _ => [(label, expanded)]
  | _ => []
  end.

Definition sections (out : list element) : list (string * bool) :=
  flat_map section_of (all_elements out).

(** ** The world around the script *)

(** What triggered this run of the script.  Streamlit reruns the script on
    each interaction, and a button reads [True] only in the run its own
    click triggered. *)
Inductive trigger : Type :=
| PageLoad
| FormSubmitted
| ButtonClicked (key : string).

(** The widget values of the browser session for this run.
    [selectbox_choice] is the position the user picked in the selector, if
    they touched it. *)
Record session : Type := mkSession {
  text_input_value : string;
  selectbox_choice : option nat;
  event : trigger
}.

Inductive service_result : Type :=
| Returns (results : list PaperResult)
| Raises (e : exception).

Record env : Type := mkEnv {
  sess : session;
  (** [ResearchAssistant.process_research_question], awaited to completion *)
  process_research_question : string -> Z -> service_result;
  (** the n-th reading of [time.time()] in this run: the exact value of the
      double it returns *)
  clock : nat -> Q;
  (** [str(x)] for a float [x] *)
  float_repr : pyfloat -> string
}.

Record state : Type := mkState {
  ui : list element;
  calls : list (string * Z);
  ticks : nat
}.

Definition initial : state := mkState [] [] 0.

(** ** The monad *)

Inductive result (A : Type) : Type :=
| Val (a : A)
| Exc (e : exception).
Arguments Val {A} a.
Arguments Exc {A} e.

Definition M (A : Type) : Type := env -> state -> result A * state.

Definition ret {A} (a : A) : M A := fun _ s => (Val a, s).

Definition bind {A B} (m : M A) (k : A -> M B) : M B :=
  fun r s =>
    match m r s with
    | (Val a, s') => k a r s'
    | (Exc e, s') => (Exc e, s')
    end.

Declare Scope py_scope.
Delimit Scope py_scope with py.
Notation "x <- m ;; k" := (bind m (fun x => k))
  (at level 61, m at next level, right associativity) : py_scope.
Notation "' pat <- m ;; k" := (bind m (fun x => match x with pat => k end))
  (at level 61, pat pattern, m at next level, right associativity) : py_scope.
Notation "m ;; k" := (bind m (fun _ => k))
  (at level 61, right associativity) : py_scope.
Open Scope py_scope.

Definition raise {A} (e : exception) : M A := fun _ s => (Exc e, s).

Definition ask {A} (f : env -> A) : M A := fun r s => (Val (f r), s).

(** [try: body  except Exception as e: handler e] *)
Definition try_except_Exception {A} (body : M A) (handler : exception -> M A)
  : M A :=
  fun r s =>
    match body r s with
    | (Val a, s') => (Val a, s')
    | (Exc e, s') =>
        if isinstance_Exception (exc_type e) then handler e r s'
        else (Exc e, s')
    end.

(** A Streamlit call that renders one element. *)
Definition emit (e : element) : M unit :=
  fun _ s => (Val tt, mkState (ui s ++ [e]) (calls s) (ticks s)).

(** [with c: body].  What the body rendered before an exception left the
    block stays rendered. *)
Definition with_block {A} (c : context) (body : M A) : M A :=
  fun r s =>
    let '(v, s') := body r (mkState [] (calls s) (ticks s)) in
    (v, mkState (ui s ++ [With c (ui s')]) (calls s') (ticks s')).

(** [for i, x in enumerate(l, start): body i x] *)
Fixpoint for_enumerate {A} (l : list A) (start : nat) (body : nat -> A -> M unit)
  : M unit :=
  match l with
  | [] => ret tt
  | x :: l' => body start x ;; for_enumerate l' (S start) body
  end.

(** [for x in l: body x] *)
Fixpoint for_each {A} (l : list A) (body : A -> M unit) : M unit :=
  match l with
  | [] => ret tt
  | x :: l' => body x ;; for_each l' body
  end.

(** ** The calls the script makes *)

Module st.

Definition title (body : string) : M unit := emit (Title body).
Definition write (body : string) : M unit := emit (Write body).
Definition header (body : string) : M unit := emit (Header body).
Definition markdown (body : string) : M unit := emit (Markdown body).
Definition success (body : string) : M unit := emit (Success body).
Definition warning (body : string) : M unit := emit (Warning body).
Definition info (body : string) : M unit := emit (Info body).
Definition error (body : string) : M unit := emit (Error body).
Definition divider : M unit := emit Divider.
Definition columns (spec : list Z) : M unit := emit (Columns spec).

(** [st.text_input] renders the field and returns what the session holds
    for it, as typed. *)
Definition text_input (label placeholder help : string) : M string :=
  emit (TextInput label placeholder help) ;;
  ask (fun r => text_input_value (sess r)).

(** The value of a selector: the option at the position the user picked,
    and the option at [index] while the selector is untouched.  The
    front end only reports positions of offered options. *)
Definition selected (options : list Z) (index : nat) (choice : option nat) : Z :=
  let default := nth index options 0%Z in
  match choice with
  | Some i => nth i options default
  | None => default
  end.

Definition selectbox (label : string) (options : list Z) (index : nat)
  (help : string) : M Z :=
  emit (Selectbox label options index help) ;;
  choice <- ask (fun r => selectbox_choice (sess r)) ;;
  ret (selected options index choice).

Definition form_submit_button (label type : string) : M bool :=
  emit (FormSubmitButton label type) ;;
  ev <- ask (fun r => event (sess r)) ;;
  ret (match ev with FormSubmitted => true | _ => false end).

Definition button (label key : string) : M bool :=
  emit (Button label key) ;;
  ev <- ask (fun r => event (sess r)) ;;
  ret (match ev with ButtonClicked k => String.eqb k key | _ => false end).

(** [st.rerun()] stops the run by raising. *)
Definition rerun : M unit := raise (mkException RerunException "").

End st.

(** [time.time()]: the next reading of the clock. *)
Definition time_time : M Q :=
  fun r s => (Val (clock r (ticks s)), mkState (ui s) (calls s) (S (ticks s))).

(** [str(score)] *)
Definition str_number (n : number) : M string :=
  match n with
  | Int z => ret (str_int z)
  | Float f => ask (fun r => float_repr r f)
  end.

(** ** The script *)

(** The cached service handle. *)
Definition get_research_assistant : M (string -> Z -> service_result) :=
  ask process_research_question.

(** Awaiting the service: the invocation is logged, then it returns its
    papers or raises. *)
Definition await_process_research_question
  (assistant : string -> Z -> service_result) (question : string)
  (max_papers : Z) : M (list PaperResult) :=
  fun _ s =>
    let s' := mkState (ui s) (calls s ++ [(question, max_papers)]) (ticks s) in
    match assistant question max_papers with
    | Returns results => (Val results, s')
    | Raises e => (Exc e, s')
    end.

Definition search_papers (question : string) (max_papers : Z)
  : M (list PaperResult) :=
  assistant <- get_research_assistant ;;
  await_process_research_question assistant question max_papers.

(** [asyncio.run] drives the coroutine to completion. *)
Definition run_search (question : string) (max_papers : Z)
  : M (list PaperResult) :=
  search_papers question max_papers.

Definition nl : string := String (ascii_of_nat 10) "".

(** Lines 88-94: the colour-coded relevance score. *)
Definition relevance_badge (score : number) : M unit :=
  shown <- str_number score ;;
  if ge score 8 then st.success ("Relevance: " ++ shown ++ "/10")
  else if ge score 6 then st.warning ("Relevance: " ++ shown ++ "/10")
  else st.info ("Relevance: " ++ shown ++ "/10").

(** Lines 78-105: the body of the [for i, paper in enumerate(results, 1)]
    loop. *)
Definition render_paper (i : nat) (paper : PaperResult) : M unit :=
  with_block (expander (str_nat i ++ ". " ++ title paper) (i <=? 3)%nat) (
    st.columns [2; 1]%Z ;;
    with_block (column 1) (
      st.write ("**Authors:** " ++ join ", " (firstn 5 (authors paper))) ;;
      st.write ("**Journal:** " ++ journal paper
                 ++ " (" ++ str_year (year paper) ++ ")")) ;;
    with_block (column 2) (
      relevance_badge (relevance_score paper)) ;;
    st.write ("**Why relevant:** " ++ relevance_reason paper) ;;
    st.write ("**Abstract:** " ++ abstract paper) ;;
    st.markdown ("[📖 View on PubMed](" ++ pubmed_url paper ++ ")") ;;
    st.divider).

Definition example_questions : list string :=
  [ "How does exercise affect depression?";
    "What are the benefits of meditation?";
    "Does caffeine improve athletic performance?";
    "How does screen time affect children?";
    "What causes burnout in nurses?" ].

Definition how_to_use : string :=
  nl ++ "        1. **Enter your research question** in natural language"
  ++ nl ++ "        2. **Choose how many papers** you want to see"
  ++ nl ++ "        3. **Click 'Search Papers'** and wait for results"
  ++ nl ++ "        4. **Click on each paper** to see full details"
  ++ nl ++ "        5. **Visit PubMed links** for complete articles"
  ++ nl ++ "        ".

Definition about : string :=
  nl ++ "        This tool uses AI to:"
  ++ nl ++ "        - Convert your question to medical search terms"
  ++ nl ++ "        - Find relevant papers in PubMed"
  ++ nl ++ "        - Rank results by relevance to your question"
  ++ nl ++ "        "
  ++ nl ++ "        Built with Streamlit and Claude AI."
  ++ nl ++ "        ".

(** Lines 39-57: the input form; returns [question], [max_papers] and
    [submitted]. *)
Definition search_form : M (string * Z * bool) :=
  with_block (form "search_form") (
    st.columns [4; 1]%Z ;;
    question <- with_block (column 1) (
      st.text_input "Research Question:"
        "How does exercise affect depression in adults?"
        "Enter your research question in natural language") ;;
    max_papers <- with_block (column 2) (
      st.selectbox "Max Papers:" [3; 5; 10; 15]%Z 1
        "Number of papers to return") ;;
    submitted <- st.form_submit_button "Search Papers" "primary" ;;
    ret (question, max_papers, submitted)).

Definition no_papers_found : string :=
  "No papers found. Try rephrasing your question or using different keywords.".

Definition please_enter : string := "Please enter a research question!".

Definition check_api_keys : string :=
  "Please check your API keys and try again.".

(** Lines 60-115: the search and the rendering of its outcome. *)
Definition process_search (question : string) (max_papers : Z)
  (submitted : bool) : M unit :=
  if submitted && truthy question then
    with_block (spinner "Searching PubMed and analyzing papers...") (
      try_except_Exception (
        start_time <- time_time ;;
        results <- run_search question max_papers ;;
        now <- time_time ;;
        let time_taken := float_sub now start_time in
        match results with
        | _ :: _ =>
            st.success ("Found " ++ str_nat (List.length results)
                         ++ " relevant papers in "
                         ++ format_float_1f time_taken
                         ++ " seconds") ;;
            for_enumerate results 1 render_paper
        | [] => st.warning no_papers_found
        end)
      (fun e =>
         st.error ("Error: " ++ exc_str e) ;;
         st.write check_api_keys))
  else if submitted && negb (truthy question) then
    st.warning please_enter
  else ret tt.

(** Lines 118-149: the static side panel. *)
Definition sidebar_panel : M unit :=
  with_block sidebar (
    st.header "How to Use" ;;
    st.write how_to_use ;;
    st.header "Example Questions" ;;
    for_each example_questions (fun example =>
      clicked <- st.button example example ;;
      if clicked then st.rerun else ret tt) ;;
    st.header "About" ;;
    st.write about).

Definition main : M unit :=
  st.title "Academic Research Assistant" ;;
  st.write "Enter your research question and get relevant academic papers from PubMed" ;;
  ' (question, max_papers, submitted) <- search_form ;;
  process_search question max_papers submitted ;;
  sidebar_panel.

(** One run of the script from an empty page. *)
Definition run (r : env) : result unit * state := main r initial.

(** ** Reading a rendering *)

Inductive tier : Type :=
| TierSuccess
| TierWarning
| TierInfo.

Definition tier_of_badge (e : element) : option tier :=
  match e with
  | Success _ => Some TierSuccess
  | Warning _ => Some TierWarning
  | Info _ => Some TierInfo
  | _ => None
  end.

(** What [relevance_badge] renders for a score, and its tier. *)
Definition badge_rendered (r : env) (score : number) : list element :=
  ui (snd (relevance_badge score r initial)).

Definition tier_shown (r : env) (score : number) : option tier :=
  match badge_rendered r score with
  | [e] => tier_of_badge e
  | _ => None
  end.

(** The value the selector hands to the script in this session. *)
Definition max_papers_of (r : env) : Z :=
  st.selected [3; 5; 10; 15]%Z 1 (selectbox_choice (sess r)).

Definition question_of (r : env) : string := text_input_value (sess r).

Definition submitted_of (r : env) : bool :=
  match event (sess r) with
  | FormSubmitted => true
  | _ => false
  end.

(** [enumerate(l, start)] *)
Fixpoint enumerate {A} (l : list A) (start : nat) : list (nat * A) :=
  match l with
  | [] => []
  | x :: l' => (start, x) :: enumerate l' (S start)
  end.

(** Whitespace in the sense of [str.isspace] on ASCII. *)
Definition is_space (c : ascii) : bool :=
  let n := nat_of_ascii c in
  ((9 <=? n) && (n <=? 13) || (28 <=? n) && (n <=? 32))%nat.

Fixpoint all_space (s : string) : bool :=
  match s with
  | EmptyString => true
  | String c s' => is_space c && all_space s'
  end.

Definition whitespace_only (s : string) : bool :=
  truthy s && all_space s.

(** ** What each block renders *)

(** The section [render_paper] renders for the [i]-th paper. *)
Definition paper_section (r : env) (i : nat) (paper : PaperResult) : element :=
  With (expander (str_nat i ++ ". " ++ title paper) (i <=? 3)%nat)
    [ Columns [2; 1]%Z;
      With (column 1)
        [ Write ("**Authors:** " ++ join ", " (firstn 5 (authors paper)));
          Write ("**Journal:** " ++ journal paper
                  ++ " (" ++ str_year (year paper) ++ ")") ];
      With (column 2) (badge_rendered r (relevance_score paper));
      Write ("**Why relevant:** " ++ relevance_reason paper);
      Write ("**Abstract:** " ++ abstract paper);
      Markdown ("[📖 View on PubMed](" ++ pubmed_url paper ++ ")");
      Divider ].

(** What the loop over [enumerate(results, start)] renders. *)
Definition paper_sections (r : env) (results : list PaperResult) (start : nat)
  : list element :=
  map (fun ip => paper_section r (fst ip) (snd ip)) (enumerate results start).

(** The fixed parts of the page: heading, form and side panel. *)
Definition page_head : list element :=
  [ Title "Academic Research Assistant";
    Write "Enter your research question and get relevant academic papers from PubMed" ].

Definition form_block : element :=
  With (form "search_form")
    [ Columns [4; 1]%Z;
      With (column 1)
        [ TextInput "Research Question:"
            "How does exercise affect depression in adults?"
            "Enter your research question in natural language" ];
      With (column 2)
        [ Selectbox "Max Papers:" [3; 5; 10; 15]%Z 1
            "Number of papers to return" ];
      FormSubmitButton "Search Papers" "primary" ].

Definition example_buttons : list element :=
  map (fun example => Button example example) example_questions.

Definition sidebar_block : element :=
  With sidebar
    ([ Header "How to Use"; Write how_to_use; Header "Example Questions" ]
       ++ example_buttons ++ [ Header "About"; Write about ]).

Definition searching : context :=
  spinner "Searching PubMed and analyzing papers...".

(** The text of the summary line. *)
Definition found_summary (n : nat) (time_taken : pyfloat) : string :=
  "Found " ++ str_nat n ++ " relevant papers in "
    ++ format_float_1f time_taken
    ++ " seconds".

(** The state a search leaves behind: its block on the page and its
    invocation in the log. *)
Definition searched (s : state) (question : string) (max_papers : Z)
  (block : list element) (n : nat) : state :=
  mkState (ui s ++ [With searching block])
    (calls s ++ [(question, max_papers)]) n.

(** A complete page, with [middle] between the form and the side panel. *)
Definition page (middle : list element) : list element :=
  page_head ++ [form_block] ++ middle ++ [sidebar_block].

(** The text of the relevance badge. *)
Definition shown_score (r : env) (score : number) : string :=
  match score with
  | Int z => str_int z
  | Float f => float_repr r f
  end.

Definition relevance_text (r : env) (score : number) : string :=
  "Relevance: " ++ shown_score r score ++ "/10".

(** Label and expanded flag of the section of an enumerated paper. *)
Definition section_heading (ip : nat * PaperResult) : string * bool :=
  (str_nat (fst ip) ++ ". " ++ title (snd ip), (fst ip <=? 3)%nat).

(** The four message boxes. *)
Definition is_alert (e : element) : bool :=
  match e with
  | Success _ | Warning _ | Info _ | Error _ => true
  | _ => false
  end.

Definition static_page : list element :=
  page_head ++ [form_block] ++ [sidebar_block].

(** The same paper with another list of authors. *)
Definition with_authors (paper : PaperResult) (l : list string) : PaperResult :=
  mkPaper (title paper) l (journal paper) (year paper) (relevance_score paper)
    (relevance_reason paper) (abstract paper) (pubmed_url paper).

Definition authors_line (paper : PaperResult) : element :=
  Write ("**Authors:** " ++ join ", " (firstn 5 (authors paper))).

(** ** Sample sessions *)

(** A session with an untouched selector, a service that answers every
    question with [svc], and a clock that reads [t0] first and [t1] from
    then on. *)
Definition env_of (q : string) (ev : trigger) (svc : service_result)
  (t0 t1 : Q) : env :=
  mkEnv (mkSession q None ev) (fun _ _ => svc)
    (fun n => match n with O => t0 | _ => t1 end) (fun _ => "float").

Definition paper_a : PaperResult :=
  mkPaper "Exercise and mood" ["A"; "B"; "C"; "D"; "E"; "F"; "G"]
    "J Psych" (YearInt 2021) (Int 9) "direct" "abs" "https://pubmed/1".

Definition paper_b : PaperResult :=
  mkPaper "Sleep and recall" ["H"; "I"] "Sleep" (YearStr "2019")
    (Float (Finite (15 # 2))) "related" "abs" "https://pubmed/2".

Definition paper_c : PaperResult :=
  mkPaper "Caffeine" [] "Sports Med" (YearInt 2015) (Int 4) "weak" "abs"
    "https://pubmed/3".

Definition paper_d : PaperResult :=
  mkPaper "Screens" ["K"; "L"; "M"; "N"; "O"] "Pediatrics" (YearInt 2020)
    (Int 11) "odd score" "abs" "https://pubmed/4".

Definition four_papers : list PaperResult :=
  [paper_a; paper_b; paper_c; paper_d].

Definition invalid_api_key : exception :=
  mkException (ExceptionSubclass "AuthenticationError") "Invalid API key".

Definition cancelled : exception :=
  mkException CancelledError "".

Definition found_env : env :=
  env_of "sleep and memory" FormSubmitted (Returns four_papers) 10 (25 # 2).

Definition empty_question_env : env :=
  env_of "" FormSubmitted (Returns four_papers) 10 (25 # 2).

Definition blank_question_env : env :=
  env_of " " FormSubmitted (Returns four_papers) 10 (25 # 2).

Definition no_papers_env : env :=
  env_of "sleep and memory" FormSubmitted (Returns []) 10 (25 # 2).

Definition failing_env : env :=
  env_of "sleep and memory" FormSubmitted (Raises invalid_api_key) 10 11.

Definition cancelled_env : env :=
  env_of "sleep and memory" FormSubmitted (Raises cancelled) 10 11.

Definition clock_set_back_env : env :=
  env_of "sleep and memory" FormSubmitted (Returns [paper_a]) 10 9.

(** ** Further readings of a run *)

(** What [st.rerun()] raises. *)
Definition rerun_exception : exception := mkException RerunException "".

(** The buttons the example loop gets to render when the button keyed
    [key] was clicked: the loop stops after the clicked one. *)
Fixpoint buttons_until (key : string) (l : list string) : list element :=
  match l with
  | [] => []
  | example :: l' =>
      Button example example
        :: (if String.eqb key example then [] else buttons_until key l')
  end.

(** The side panel as far as it is rendered when an example was clicked. *)
Definition sidebar_until (key : string) : element :=
  With sidebar
    ([ Header "How to Use"; Write how_to_use; Header "Example Questions" ]
       ++ buttons_until key example_questions).

(** The message boxes of a rendering, in order. *)
Definition alerts (out : list element) : list element :=
  filter is_alert (all_elements out).

(** The tiers from low to high. *)
Definition tier_rank (t : tier) : nat :=
  match t with
  | TierInfo => 0
  | TierWarning => 1
  | TierSuccess => 2
  end.

(** The numeric value of a score that has one. *)
Definition value_of (n : number) : option Q :=
  match n with
  | Int z => Some (inject_Z z)
  | Float (Finite q) => Some q
  | Float NegZero => Some 0
  | Float _ => None
  end.

(** The number of clock readings a search takes: the second one is only
    reached when the service returns. *)
Definition readings_of (answer : service_result) : nat :=
  match answer with
  | Returns _ => 2
  | Raises _ => 1
  end.

Definition page_load_env : env :=
  env_of "typed but not submitted" PageLoad (Returns four_papers) 10 (25 # 2).

Definition example_click_env : env :=
  env_of "" (ButtonClicked "Does caffeine improve athletic performance?")
    (Returns four_papers) 10 (25 # 2).

Definition quick_env : env :=
  env_of "sleep and memory" FormSubmitted (Returns four_papers) 10 (641 # 64).

(** ** How the blocks run *)

Ltac run_step :=
  unfold bind, ret, ask, emit, with_block, raise; cbn [ui calls ticks fst snd app].

Lemma relevance_badge_run (score : number) (r : env) (s : state) :
  relevance_badge score r s
  = (Val tt, mkState (ui s ++ badge_rendered r score) (calls s) (ticks s)).
Proof.
  unfold badge_rendered, relevance_badge, str_number, st.success, st.warning,
    st.info.
  destruct score as [z | f]; run_step;
    destruct (ge _ 8); [ reflexivity | destruct (ge _ 6); reflexivity
                       | reflexivity | destruct (ge _ 6); reflexivity ].
Qed.

Lemma render_paper_run (i : nat) (paper : PaperResult) (r : env) (s : state) :
  render_paper i paper r s
  = (Val tt, mkState (ui s ++ [paper_section r i paper]) (calls s) (ticks s)).
Proof.
  unfold render_paper, paper_section, st.columns, st.write, st.markdown,
    st.divider.
  run_step. rewrite relevance_badge_run. reflexivity.
Qed.

Lemma for_enumerate_render_paper (results : list PaperResult) :
  forall (start : nat) (r : env) (s : state),
    for_enumerate results start render_paper r s
    = (Val tt,
       mkState (ui s ++ paper_sections r results start) (calls s) (ticks s)).
Proof.
  induction results as [| paper results IH]; intros start r s.
  - cbn. rewrite app_nil_r. destruct s; reflexivity.
  - cbn [for_enumerate]. unfold bind. rewrite render_paper_run, IH.
    cbn [ui calls ticks]. rewrite <- app_assoc. reflexivity.
Qed.

Lemma search_form_run (r : env) (s : state) :
  search_form r s
  = (Val (question_of r, max_papers_of r, submitted_of r),
     mkState (ui s ++ [form_block]) (calls s) (ticks s)).
Proof. reflexivity. Qed.

(** Without a click on an example button the side panel renders in full. *)
Lemma sidebar_panel_run (r : env) (s : state) :
  (forall key, event (sess r) <> ButtonClicked key) ->
  sidebar_panel r s
  = (Val tt, mkState (ui s ++ [sidebar_block]) (calls s) (ticks s)).
Proof.
  intros Hev. unfold sidebar_panel, st.button, st.header, st.write.
  cbn [example_questions for_each]. run_step.
  destruct (event (sess r)) as [| | key] eqn:E;
    [ reflexivity | reflexivity | exfalso; exact (Hev key eq_refl) ].
Qed.

(** In every case the side panel leaves the service log alone. *)
Lemma sidebar_panel_calls (r : env) (s : state) :
  calls (snd (sidebar_panel r s)) = calls s.
Proof.
  unfold sidebar_panel, st.button, st.header, st.write, st.rerun.
  cbn [example_questions for_each]. run_step.
  destruct (event (sess r)) as [| | key] eqn:E; [ reflexivity | reflexivity | ].
  repeat match goal with
         | |- context [String.eqb key ?k] => destruct (String.eqb key k)
         | _ => reflexivity
         end.
Qed.

(** ** The four outcomes of a submitted, non-empty question *)

Section Submitted.

Variable r : env.
Variable s : state.
Variables (question : string) (max_papers : Z).
Hypothesis question_nonempty : truthy question = true.

Ltac enter_search H :=
  unfold process_search, run_search, search_papers, get_research_assistant,
    await_process_research_question, time_time, try_except_Exception;
  rewrite question_nonempty; cbn [andb];
  run_step; rewrite H; cbn [ui calls ticks].

Lemma process_search_found (results : list PaperResult) :
  process_research_question r question max_papers = Returns results ->
  results <> [] ->
  process_search question max_papers true r s
  = (Val tt,
     searched s question max_papers
       (Success (found_summary (List.length results)
                   (float_sub (clock r (S (ticks s))) (clock r (ticks s))))
          :: paper_sections r results 1)
       (S (S (ticks s)))).
Proof.
  intros Hsvc Hne. enter_search Hsvc.
  destruct results as [| paper results]; [ congruence | ].
  unfold st.success; run_step.
  rewrite for_enumerate_render_paper. reflexivity.
Qed.

Lemma process_search_empty :
  process_research_question r question max_papers = Returns [] ->
  process_search question max_papers true r s
  = (Val tt,
     searched s question max_papers [Warning no_papers_found]
       (S (S (ticks s)))).
Proof. intros Hsvc. enter_search Hsvc. reflexivity. Qed.

Lemma process_search_caught (e : exception) :
  process_research_question r question max_papers = Raises e ->
  isinstance_Exception (exc_type e) = true ->
  process_search question max_papers true r s
  = (Val tt,
     searched s question max_papers
       [Error ("Error: " ++ exc_str e); Write check_api_keys]
       (S (ticks s))).
Proof. intros Hsvc Hexc. enter_search Hsvc. rewrite Hexc. reflexivity. Qed.

Lemma process_search_uncaught (e : exception) :
  process_research_question r question max_papers = Raises e ->
  isinstance_Exception (exc_type e) = false ->
  process_search question max_papers true r s
  = (Exc e, searched s question max_papers [] (S (ticks s))).
Proof. intros Hsvc Hexc. enter_search Hsvc. rewrite Hexc. reflexivity. Qed.

End Submitted.

(** ** Whole runs *)

Lemma submitted_event (r : env) :
  submitted_of r = true -> event (sess r) = FormSubmitted.
Proof. unfold submitted_of. destruct (event (sess r)); congruence. Qed.

Lemma submitted_no_button (r : env) :
  submitted_of r = true -> forall key, event (sess r) <> ButtonClicked key.
Proof. intros H key. rewrite (submitted_event r H). discriminate. Qed.

Lemma main_unfold (r : env) (s : state) :
  main r s
  = match process_search (question_of r) (max_papers_of r) (submitted_of r) r
            (mkState (ui s ++ page_head ++ [form_block]) (calls s) (ticks s))
    with
    | (Val _, s') => sidebar_panel r s'
    | (Exc e, s') => (Exc e, s')
    end.
Proof.
  unfold main, st.title, st.write. run_step. rewrite search_form_run.
  cbn [ui calls ticks]. rewrite <- !app_assoc. reflexivity.
Qed.

Section Runs.

Variable r : env.
Hypothesis submitted : submitted_of r = true.

Lemma run_empty_question :
  question_of r = "" ->
  run r = (Val tt, mkState (page [Warning please_enter]) [] 0).
Proof.
  intros Hq. unfold run. rewrite main_unfold, submitted, Hq.
  unfold process_search, st.warning. cbn [truthy andb negb]. run_step.
  rewrite sidebar_panel_run by (apply submitted_no_button; exact submitted).
  reflexivity.
Qed.

Hypothesis nonempty : truthy (question_of r) = true.

Lemma run_found (results : list PaperResult) :
  process_research_question r (question_of r) (max_papers_of r) = Returns results ->
  results <> [] ->
  run r
  = (Val tt,
     mkState
       (page [With searching
                (Success (found_summary (List.length results)
                            (float_sub (clock r 1) (clock r 0)))
                   :: paper_sections r results 1)])
       [(question_of r, max_papers_of r)] 2).
Proof.
  intros Hsvc Hne. unfold run. rewrite main_unfold, submitted.
  rewrite (process_search_found r _ _ _ nonempty results Hsvc Hne).
  rewrite sidebar_panel_run by (apply submitted_no_button; exact submitted).
  reflexivity.
Qed.

Lemma run_no_papers :
  process_research_question r (question_of r) (max_papers_of r) = Returns [] ->
  run r
  = (Val tt,
     mkState (page [With searching [Warning no_papers_found]])
       [(question_of r, max_papers_of r)] 2).
Proof.
  intros Hsvc. unfold run. rewrite main_unfold, submitted.
  rewrite (process_search_empty r _ _ _ nonempty Hsvc).
  rewrite sidebar_panel_run by (apply submitted_no_button; exact submitted).
  reflexivity.
Qed.

Lemma run_caught (e : exception) :
  process_research_question r (question_of r) (max_papers_of r) = Raises e ->
  isinstance_Exception (exc_type e) = true ->
  run r
  = (Val tt,
     mkState
       (page [With searching
                [Error ("Error: " ++ exc_str e); Write check_api_keys]])
       [(question_of r, max_papers_of r)] 1).
Proof.
  intros Hsvc Hexc. unfold run. rewrite main_unfold, submitted.
  rewrite (process_search_caught r _ _ _ nonempty e Hsvc Hexc).
  rewrite sidebar_panel_run by (apply submitted_no_button; exact submitted).
  reflexivity.
Qed.

Lemma run_uncaught (e : exception) :
  process_research_question r (question_of r) (max_papers_of r) = Raises e ->
  isinstance_Exception (exc_type e) = false ->
  run r
  = (Exc e,
     mkState (page_head ++ [form_block] ++ [With searching []])
       [(question_of r, max_papers_of r)] 1).
Proof.
  intros Hsvc Hexc. unfold run. rewrite main_unfold, submitted.
  rewrite (process_search_uncaught r _ _ _ nonempty e Hsvc Hexc).
  reflexivity.
Qed.

End Runs.

(** ** Reading lemmas *)

Lemma badge_rendered_eq (r : env) (score : number) :
  badge_rendered r score
  = [ (if ge score 8 then Success
       else if ge score 6 then Warning else Info) (relevance_text r score) ].
Proof.
  unfold badge_rendered, relevance_badge, str_number, relevance_text,
    shown_score, st.success, st.warning, st.info.
  destruct score as [z | f]; run_step;
    destruct (ge _ 8); try reflexivity; destruct (ge _ 6); reflexivity.
Qed.

Lemma tier_shown_eq (r : env) (score : number) :
  tier_shown r score
  = Some (if ge score 8 then TierSuccess
          else if ge score 6 then TierWarning else TierInfo).
Proof.
  unfold tier_shown. rewrite badge_rendered_eq.
  destruct (ge score 8); [ reflexivity | destruct (ge score 6); reflexivity ].
Qed.

Lemma all_elements_app (a b : list element) :
  all_elements (a ++ b) = (all_elements a ++ all_elements b)%list.
Proof. apply flat_map_app. Qed.

Lemma sections_app (a b : list element) :
  sections (a ++ b) = (sections a ++ sections b)%list.
Proof. unfold sections. rewrite all_elements_app. apply flat_map_app. Qed.

Lemma sections_page (middle : list element) :
  sections (page middle) = sections middle.
Proof.
  unfold page. rewrite !sections_app.
  change (sections page_head) with (@nil (string * bool)).
  change (sections [form_block]) with (@nil (string * bool)).
  change (sections [sidebar_block]) with (@nil (string * bool)).
  cbn [app]. apply app_nil_r.
Qed.

Lemma sections_searching (block : list element) :
  sections [With searching block] = sections block.
Proof.
  unfold sections, all_elements. cbn [flat_map flatten searching section_of app].
  rewrite app_nil_r. reflexivity.
Qed.

Lemma sections_paper_section (r : env) (i : nat) (paper : PaperResult) :
  sections [paper_section r i paper] = [section_heading (i, paper)].
Proof.
  unfold sections, all_elements, paper_section. rewrite badge_rendered_eq.
  destruct (ge _ 8); [ reflexivity | destruct (ge _ 6); reflexivity ].
Qed.

Lemma sections_paper_sections (r : env) (results : list PaperResult) :
  forall start,
    sections (paper_sections r results start)
    = map section_heading (enumerate results start).
Proof.
  induction results as [| paper results IH]; intros start; [ reflexivity | ].
  change (paper_sections r (paper :: results) start)
    with ([paper_section r start paper] ++ paper_sections r results (S start))%list.
  rewrite sections_app, sections_paper_section, IH. reflexivity.
Qed.

Lemma in_page (e : element) (middle : list element) :
  In e (all_elements (page middle))
  <-> In e (all_elements static_page) \/ In e (all_elements middle).
Proof.
  unfold page, static_page. rewrite !all_elements_app, !in_app_iff. tauto.
Qed.

Lemma static_page_no_alert (e : element) :
  In e (all_elements static_page) -> is_alert e = false.
Proof.
  intros Hin. destruct (is_alert e) eqn:E; [ | reflexivity ].
  assert (H : existsb is_alert (all_elements static_page) = true)
    by (apply existsb_exists; exists e; split; assumption).
  vm_compute in H. discriminate.
Qed.

Lemma alert_in_page (e : element) (middle : list element) :
  is_alert e = true ->
  In e (all_elements (page middle)) <-> In e (all_elements middle).
Proof.
  intros Ha. rewrite in_page. split; [ | tauto ].
  intros [Hs | Hm]; [ | exact Hm ].
  apply static_page_no_alert in Hs. congruence.
Qed.

Lemma all_elements_searching (block : list element) :
  all_elements [With searching block]
  = With searching block :: all_elements block.
Proof.
  unfold all_elements. cbn [flat_map flatten searching].
  rewrite app_nil_r. reflexivity.
Qed.

(** ** Relevance tiers *)

Lemma float_ge_true (k : Z) (q : Q) :
  inject_Z k <= q -> float_ge (Finite q) k = true.
Proof. intros H. apply Qle_bool_iff. exact H. Qed.

Lemma float_ge_false (k : Z) (q : Q) :
  q < inject_Z k -> float_ge (Finite q) k = false.
Proof.
  intros H. unfold float_ge.
  destruct (Qle_bool (inject_Z k) q) eqn:E; [ | reflexivity ].
  apply Qle_bool_iff in E. exfalso. exact (Qlt_not_le _ _ H E).
Qed.

(** C1. The relevance badge of a rendered paper is a three-way threshold
    classification of its score: 8 and above renders with [st.success],
    from 6 up to (not including) 8 with [st.warning], below 6 with
    [st.info], for integer and for finite float scores alike; so 9 and 8 are
    "success", 7 and 6 are "warning", 4 is "info".  The badge is what
    [render_paper] puts in the second column of the paper's section. *)
Theorem relevance_tier_thresholds (r : env) :
  (forall z : Z,
     ((8 <= z)%Z -> tier_shown r (Int z) = Some TierSuccess) /\
     ((6 <= z < 8)%Z -> tier_shown r (Int z) = Some TierWarning) /\
     ((z < 6)%Z -> tier_shown r (Int z) = Some TierInfo)) /\
  (forall q : Q,
     (8 <= q -> tier_shown r (Float (Finite q)) = Some TierSuccess) /\
     (6 <= q /\ q < 8 -> tier_shown r (Float (Finite q)) = Some TierWarning) /\
     (q < 6 -> tier_shown r (Float (Finite q)) = Some TierInfo)) /\
  (tier_shown r (Int 9) = Some TierSuccess /\
   tier_shown r (Int 7) = Some TierWarning /\
   tier_shown r (Int 4) = Some TierInfo /\
   tier_shown r (Int 8) = Some TierSuccess /\
   tier_shown r (Int 6) = Some TierWarning) /\
  (forall (i : nat) (paper : PaperResult) (s : state),
     exists before after,
       ui (snd (render_paper i paper r s))
       = (ui s
            ++ [With (expander (str_nat i ++ ". " ++ title paper) (i <=? 3)%nat)
                  (before
                     ++ [With (column 2)
                           (badge_rendered r (relevance_score paper))]
                     ++ after)])%list).
Proof.
  split; [ | split; [ | split ] ].
  - intros z. rewrite tier_shown_eq. cbn [ge].
    repeat split; intros H.
    + replace (8 <=? z)%Z with true by (symmetry; apply Z.leb_le; lia).
      reflexivity.
    + replace (8 <=? z)%Z with false by (symmetry; apply Z.leb_gt; lia).
      replace (6 <=? z)%Z with true by (symmetry; apply Z.leb_le; lia).
      reflexivity.
    + replace (8 <=? z)%Z with false by (symmetry; apply Z.leb_gt; lia).
      replace (6 <=? z)%Z with false by (symmetry; apply Z.leb_gt; lia).
      reflexivity.
  - intros q. rewrite tier_shown_eq. cbn [ge].
    repeat split.
    + intros H. rewrite (float_ge_true 8 q H). reflexivity.
    + intros [H6 H8].
      rewrite (float_ge_false 8 q H8), (float_ge_true 6 q H6). reflexivity.
    + intros H. rewrite (float_ge_false 6 q H).
      rewrite (float_ge_false 8 q)
        by (apply Qlt_trans with (y := 6); [ exact H | reflexivity ]).
      reflexivity.
  - repeat split; rewrite tier_shown_eq; reflexivity.
  - intros i paper s. rewrite render_paper_run. cbn [snd ui].
    unfold paper_section.
    eexists [_; _], _. reflexivity.
Qed.

(** C2 (as amended). Scores outside 0-10 are not validated and go through
    the same comparisons: a negative score (and minus infinity, and NaN)
    lands in the "info" tier, a score above 10 (and plus infinity) lands in
    the "success" tier; the badge is rendered in every case. *)
Theorem out_of_range_scores (r : env) :
  (forall z : Z, (z < 0)%Z -> tier_shown r (Int z) = Some TierInfo) /\
  (forall z : Z, (10 < z)%Z -> tier_shown r (Int z) = Some TierSuccess) /\
  (forall q : Q, q < 0 -> tier_shown r (Float (Finite q)) = Some TierInfo) /\
  (forall q : Q, 10 < q -> tier_shown r (Float (Finite q)) = Some TierSuccess) /\
  tier_shown r (Float NegInf) = Some TierInfo /\
  tier_shown r (Float NaN) = Some TierInfo /\
  tier_shown r (Float PosInf) = Some TierSuccess /\
  (forall (score : number) (s : state),
     fst (relevance_badge score r s) = Val tt).
Proof.
  repeat split; try (rewrite tier_shown_eq; reflexivity).
  - intros z H. rewrite tier_shown_eq. cbn [ge].
    replace (8 <=? z)%Z with false by (symmetry; apply Z.leb_gt; lia).
    replace (6 <=? z)%Z with false by (symmetry; apply Z.leb_gt; lia).
    reflexivity.
  - intros z H. rewrite tier_shown_eq. cbn [ge].
    replace (8 <=? z)%Z with true by (symmetry; apply Z.leb_le; lia).
    reflexivity.
  - intros q H. rewrite tier_shown_eq. cbn [ge].
    rewrite (float_ge_false 8 q), (float_ge_false 6 q);
      [ reflexivity | | ];
      (apply Qlt_trans with (y := 0); [ exact H | reflexivity ]).
  - intros q H. rewrite tier_shown_eq. cbn [ge].
    rewrite (float_ge_true 8 q); [ reflexivity | ].
    apply Qlt_le_weak. apply Qlt_trans with (y := 10); [ reflexivity | exact H ].
  - intros score s. rewrite relevance_badge_run. reflexivity.
Qed.

(** ** Submissions *)

Lemma empty_question_shows_warning (r : env) :
  submitted_of r = true ->
  question_of r = "" ->
  In (Warning please_enter) (all_elements (ui (snd (run r)))).
Proof.
  intros Hsub Hq. rewrite (run_empty_question r Hsub Hq). cbn [snd ui].
  apply in_page. right. left. reflexivity.
Qed.

(** C3. A submission whose question is the empty string renders the
    validation warning, and the research service is not invoked in that
    run. *)
Theorem empty_question_warns (r : env) :
  submitted_of r = true ->
  question_of r = "" ->
  fst (run r) = Val tt /\
  calls (snd (run r)) = [] /\
  In (Warning "Please enter a research question!")
    (all_elements (ui (snd (run r)))).
Proof.
  intros Hsub Hq. rewrite (run_empty_question r Hsub Hq). cbn [fst snd ui calls].
  split; [ reflexivity | split; [ reflexivity | ] ].
  apply in_page. right. left. reflexivity.
Qed.

(** C4 (as amended). An exception raised during the service call that is
    an instance of [Exception] is caught whatever its subclass: the run
    completes, shows ["Error: " + str(e)] and the hint to check the API
    keys, and renders no paper section. *)
Theorem service_exception_caught (r : env) (e : exception) :
  submitted_of r = true ->
  truthy (question_of r) = true ->
  process_research_question r (question_of r) (max_papers_of r) = Raises e ->
  isinstance_Exception (exc_type e) = true ->
  fst (run r) = Val tt /\
  In (Error ("Error: " ++ exc_str e)) (all_elements (ui (snd (run r)))) /\
  In (Write "Please check your API keys and try again.")
    (all_elements (ui (snd (run r)))) /\
  sections (ui (snd (run r))) = [].
Proof.
  intros Hsub Hq Hsvc Hexc. rewrite (run_caught r Hsub Hq e Hsvc Hexc).
  cbn [fst snd ui]. split; [ reflexivity | split; [ | split ] ].
  - apply in_page. right. rewrite all_elements_searching. right. left.
    reflexivity.
  - apply in_page. right. rewrite all_elements_searching. right. right. left.
    reflexivity.
  - rewrite sections_page, sections_searching. reflexivity.
Qed.

(** C5. When the service returns an empty sequence the run shows the
    "No papers found" warning with its advice to rephrase, renders no paper
    section and shows no success message. *)
Theorem empty_results_warn (r : env) :
  submitted_of r = true ->
  truthy (question_of r) = true ->
  process_research_question r (question_of r) (max_papers_of r) = Returns [] ->
  fst (run r) = Val tt /\
  In (Warning
        "No papers found. Try rephrasing your question or using different keywords.")
    (all_elements (ui (snd (run r)))) /\
  sections (ui (snd (run r))) = [] /\
  (forall text, ~ In (Success text) (all_elements (ui (snd (run r))))).
Proof.
  intros Hsub Hq Hsvc. rewrite (run_no_papers r Hsub Hq Hsvc).
  cbn [fst snd ui]. split; [ reflexivity | split; [ | split ] ].
  - apply in_page. right. rewrite all_elements_searching. right. left.
    reflexivity.
  - rewrite sections_page, sections_searching. reflexivity.
  - intros text Hin.
    apply (proj1 (alert_in_page (Success text) _ eq_refl)) in Hin.
    rewrite all_elements_searching in Hin.
    destruct Hin as [H | [H | []]]; discriminate.
Qed.

(** ** The list of sections *)

Lemma enumerate_length {A} (l : list A) :
  forall start, List.length (enumerate l start) = List.length l.
Proof.
  induction l as [| x l IH]; intros start; cbn; [ | rewrite IH ]; reflexivity.
Qed.

Lemma enumerate_nth_error {A} (l : list A) :
  forall start k x,
    nth_error l k = Some x ->
    nth_error (enumerate l start) k = Some (start + k, x)%nat.
Proof.
  induction l as [| y l IH]; intros start k x H.
  - destruct k; discriminate.
  - destruct k as [| k]; cbn in *.
    + injection H as ->. rewrite Nat.add_0_r. reflexivity.
    + rewrite (IH (S start) k x H). f_equal. f_equal. lia.
Qed.

Lemma enumerate_flags (l : list PaperResult) :
  forall start,
    map snd (map section_heading (enumerate l start))
    = map (fun i => (i <=? 3)%nat) (seq start (List.length l)).
Proof.
  induction l as [| x l IH]; intros start; cbn; [ | rewrite IH ]; reflexivity.
Qed.

Lemma flags_collapsed (n : nat) :
  forall start, (4 <= start)%nat ->
    map (fun i => (i <=? 3)%nat) (seq start n) = repeat false n.
Proof.
  induction n as [| n IH]; intros start H; cbn [seq map repeat]; [ reflexivity | ].
  rewrite IH by lia.
  replace (start <=? 3)%nat with false by (symmetry; apply Nat.leb_gt; lia).
  reflexivity.
Qed.

Lemma flags_first_three (n : nat) :
  map (fun i => (i <=? 3)%nat) (seq 1 n)
  = (repeat true (Nat.min n 3) ++ repeat false (n - Nat.min n 3))%list.
Proof.
  destruct n as [| [| [| n]]]; try reflexivity.
  change (seq 1 (S (S (S n)))) with (1 :: 2 :: 3 :: seq 4 n)%nat.
  cbn [map Nat.leb]. rewrite flags_collapsed by lia.
  replace (Nat.min (S (S (S n))) 3) with 3%nat by lia.
  replace (S (S (S n)) - 3)%nat with n by lia.
  reflexivity.
Qed.

(** C6. A non-empty result sequence of length N is rendered, in the order
    received, as N sections; the k-th one (counting from 0) is titled
    [str(k+1) + ". " + title] and is expanded exactly when k < 3, so the
    first min(N, 3) are expanded and the other N - min(N, 3) collapsed. *)
Theorem sections_in_order (r : env) (results : list PaperResult) :
  submitted_of r = true ->
  truthy (question_of r) = true ->
  process_research_question r (question_of r) (max_papers_of r)
  = Returns results ->
  results <> [] ->
  let N := List.length results in
  let secs := sections (ui (snd (run r))) in
  List.length secs = N /\
  (forall k paper,
     nth_error results k = Some paper ->
     nth_error secs k
     = Some (str_nat (S k) ++ ". " ++ title paper, (k <? 3)%nat)) /\
  map snd secs
  = (repeat true (Nat.min N 3) ++ repeat false (N - Nat.min N 3))%list.
Proof.
  intros Hsub Hq Hsvc Hne N secs. subst N secs.
  rewrite (run_found r Hsub Hq results Hsvc Hne). cbn [snd ui].
  rewrite sections_page, sections_searching.
  change (sections (Success ?m :: ?l)) with (sections l).
  rewrite sections_paper_sections.
  split; [ | split ].
  - rewrite length_map. apply enumerate_length.
  - intros k paper Hk.
    rewrite nth_error_map, (enumerate_nth_error results 1 k paper Hk).
    reflexivity.
  - rewrite enumerate_flags. apply flags_first_three.
Qed.

(** ** The summary line *)

Lemma round_tenths_nearest (a : Q) :
  Qabs (10 * a - inject_Z (round_tenths a)) <= 1 # 2.
Proof.
  apply Qabs_Qle_condition.
  unfold round_tenths.
  destruct a as [p d]. cbn [Qnum Qden].
  pose proof (Z.div_mod (p * 10) (Zpos d) ltac:(lia)) as Hdm.
  pose proof (Z.mod_pos_bound (p * 10) (Zpos d) ltac:(lia)) as Hb.
  set (n := (p * 10 / Zpos d)%Z) in *.
  set (m := ((p * 10) mod Zpos d)%Z) in *.
  destruct (Z.compare_spec (2 * m) (Zpos d)) as [E | E | E];
    [ destruct (Z.even n) | | ];
    unfold Qle, Qminus, Qplus, Qmult, Qopp, inject_Z; cbn [Qnum Qden];
    split; nia.
Qed.

Lemma round_tenths_nonneg (a : Q) : 0 <= a -> (0 <= round_tenths a)%Z.
Proof.
  intros H. unfold round_tenths.
  destruct a as [p d]. unfold Qle in H. cbn [Qnum Qden] in *.
  assert (0 <= p * 10 / Zpos d)%Z by (apply Z.div_pos; lia).
  destruct (2 * _ ?= _)%Z; [ destruct (Z.even _) | | ]; lia.
Qed.

Lemma format_1f_unsigned (x : Q) :
  0 <= x ->
  format_1f x
  = str_int (round_tenths (Qabs x) / 10) ++ "."
      ++ str_int (round_tenths (Qabs x) mod 10).
Proof.
  intros H. unfold format_1f.
  destruct (Qlt_le_dec x 0) as [Hneg | _]; [ | reflexivity ].
  exfalso. exact (Qlt_not_le _ _ Hneg H).
Qed.

Lemma div_half_even_nonneg (num den : Z) :
  (0 <= num)%Z -> (0 < den)%Z -> (0 <= div_half_even num den)%Z.
Proof.
  intros Hn Hd. unfold div_half_even.
  assert (0 <= num / den)%Z by (apply Z.div_pos; lia).
  destruct (2 * _ ?= _)%Z; [ destruct (Z.even _) | | ]; lia.
Qed.

Lemma significand_nonneg (p : Z) (q : positive) :
  (0 <= p)%Z -> (0 <= significand p q)%Z.
Proof.
  intros Hp. unfold significand.
  destruct (0 <=? quantum p q)%Z eqn:E; apply div_half_even_nonneg.
  - exact Hp.
  - apply Z.mul_pos_pos; [ reflexivity | ].
    apply Z.pow_pos_nonneg; [ lia | apply Z.leb_le; exact E ].
  - apply Z.mul_nonneg_nonneg; [ exact Hp | apply Z.pow_nonneg; lia ].
  - reflexivity.
Qed.

Lemma scaled_nonneg (m s : Z) : (0 <= m)%Z -> 0 <= scaled m s.
Proof.
  intros Hm. unfold scaled. destruct (0 <=? s)%Z.
  - change 0 with (inject_Z 0). rewrite <- Zle_Qle.
    apply Z.mul_nonneg_nonneg; [ exact Hm | apply Z.pow_nonneg; lia ].
  - unfold Qle. cbn [Qnum Qden]. lia.
Qed.

(** Rounding keeps the sign: a non-negative number rounds to a
    non-negative double, or to plus infinity. *)
Lemma round_double_nonneg (x : Q) :
  0 <= x ->
  round_double x = PosInf \/ exists d, round_double x = Finite d /\ 0 <= d.
Proof.
  intros Hx. unfold round_double.
  assert (Hnum : (0 <= Qnum x)%Z)
    by (unfold Qle in Hx; cbn [Qnum Qden] in Hx; lia).
  replace (Qnum x <? 0)%Z with false by (symmetry; apply Z.ltb_ge; exact Hnum).
  rewrite (Z.abs_eq _ Hnum).
  destruct (Qnum x =? 0)%Z; [ right; exists 0; split; [ | apply Qle_refl ];
                              reflexivity | ].
  destruct (significand (Qnum x) (Qden x) =? 0)%Z;
    [ right; exists 0; split; [ | apply Qle_refl ]; reflexivity | ].
  destruct (1024 <=? _)%Z; [ left; reflexivity | ].
  right. eexists. split; [ reflexivity | ].
  apply scaled_nonneg. apply significand_nonneg. exact Hnum.
Qed.

(** C7 (as amended). A successful submission with a non-empty result
    sequence shows a success message with the number of papers and the
    difference between the [time.time()] readings taken after and before
    the service call (a float subtraction), printed with one decimal place
    (the nearest tenth of that difference).  The printed duration carries no
    minus sign whenever the second reading is not earlier than the first. *)
Theorem found_summary_shown (r : env) (results : list PaperResult) :
  submitted_of r = true ->
  truthy (question_of r) = true ->
  process_research_question r (question_of r) (max_papers_of r)
  = Returns results ->
  results <> [] ->
  let time_taken := float_sub (clock r 1) (clock r 0) in
  In (Success ("Found " ++ str_nat (List.length results)
                ++ " relevant papers in " ++ format_float_1f time_taken
                ++ " seconds"))
    (all_elements (ui (snd (run r)))) /\
  (forall d,
     time_taken = Finite d ->
     let tenths := round_tenths (Qabs d) in
     format_float_1f time_taken
     = (if Qlt_le_dec d 0 then "-" else "")
         ++ str_int (tenths / 10) ++ "." ++ str_int (tenths mod 10) /\
     Qabs (10 * Qabs d - inject_Z tenths) <= 1 # 2 /\
     (0 <= tenths mod 10 < 10)%Z) /\
  (clock r 0 <= clock r 1 ->
   time_taken = PosInf \/
   exists d,
     time_taken = Finite d /\ 0 <= d /\
     (0 <= round_tenths (Qabs d))%Z /\
     format_float_1f time_taken
     = str_int (round_tenths (Qabs d) / 10) ++ "."
         ++ str_int (round_tenths (Qabs d) mod 10)).
Proof.
  intros Hsub Hq Hsvc Hne time_taken.
  rewrite (run_found r Hsub Hq results Hsvc Hne). cbn [snd ui].
  split; [ | split ].
  - apply in_page. right. rewrite all_elements_searching. right. left.
    reflexivity.
  - intros d Hd. rewrite Hd. split; [ reflexivity | split ].
    + apply round_tenths_nearest.
    + apply Z.mod_pos_bound. lia.
  - intros Hmono.
    assert (Hpos : 0 <= clock r 1 - clock r 0)
      by (apply (proj1 (Qle_minus_iff _ _)); exact Hmono).
    destruct (round_double_nonneg _ Hpos) as [Hinf | (d & Hd & Hd0)].
    + left. exact Hinf.
    + right. exists d. split; [ exact Hd | split; [ exact Hd0 | split ] ].
      * apply round_tenths_nonneg. apply Qabs_nonneg.
      * unfold time_taken, float_sub. rewrite Hd.
        apply format_1f_unsigned. exact Hd0.
Qed.

(** ** Authors *)

Lemma authors_line_in_section (r : env) (i : nat) (paper : PaperResult) :
  In (authors_line paper) (flatten (paper_section r i paper)).
Proof.
  unfold paper_section. cbn [flatten flat_map app].
  right. right. right. left. reflexivity.
Qed.

Lemma paper_section_listed (r : env) (results : list PaperResult) :
  forall start k paper,
    nth_error results k = Some paper ->
    In (paper_section r (start + k) paper) (paper_sections r results start).
Proof.
  intros start k paper Hk. unfold paper_sections.
  apply in_map_iff. exists ((start + k)%nat, paper). split; [ reflexivity | ].
  apply nth_error_In with (n := k). apply enumerate_nth_error. exact Hk.
Qed.

(** C8. The authors line of a rendered paper is ["**Authors:** "] followed
    by the first min(5, number of authors) authors, in their order, joined
    by [", "]: a paper with at most five authors shows them all, and the
    rendering does not depend on the authors after the fifth.  Every paper
    of a successful run has this line on the page. *)
Theorem first_five_authors (r : env) (paper : PaperResult) :
  let shown := firstn 5 (authors paper) in
  (forall (i : nat) (s : state),
     In (Write ("**Authors:** " ++ join ", " shown))
       (all_elements (ui (snd (render_paper i paper r s))))) /\
  List.length shown = Nat.min 5 (List.length (authors paper)) /\
  (exists rest, authors paper = (shown ++ rest)%list) /\
  ((List.length (authors paper) <= 5)%nat -> shown = authors paper) /\
  (forall (others : list string) (i : nat) (s : state),
     firstn 5 others = shown ->
     render_paper i (with_authors paper others) r s = render_paper i paper r s) /\
  (forall (results : list PaperResult) (k : nat),
     submitted_of r = true ->
     truthy (question_of r) = true ->
     process_research_question r (question_of r) (max_papers_of r)
     = Returns results ->
     nth_error results k = Some paper ->
     In (Write ("**Authors:** " ++ join ", " shown))
       (all_elements (ui (snd (run r))))).
Proof.
  intros shown. subst shown.
  split; [ | split; [ | split; [ | split; [ | split ] ] ] ].
  - intros i s. rewrite render_paper_run. cbn [snd ui].
    rewrite all_elements_app. apply in_or_app. right.
    unfold all_elements. cbn [flat_map]. rewrite app_nil_r.
    apply authors_line_in_section.
  - apply length_firstn.
  - exists (skipn 5 (authors paper)). symmetry. apply firstn_skipn.
  - intros Hle. apply firstn_all2. exact Hle.
  - intros others i s Hsame. rewrite !render_paper_run.
    unfold paper_section, with_authors. cbn [title authors journal year
      relevance_score relevance_reason abstract pubmed_url].
    rewrite Hsame. reflexivity.
  - intros results k Hsub Hq Hsvc Hk.
    assert (Hne : results <> []) by (destruct results, k; discriminate).
    rewrite (run_found r Hsub Hq results Hsvc Hne). cbn [snd ui].
    apply in_page. right. rewrite all_elements_searching. right.
    change (all_elements (Success ?m :: ?l)) with (Success m :: all_elements l).
    right. unfold all_elements. apply in_flat_map.
    exists (paper_section r (1 + k) paper). split.
    + apply paper_section_listed. exact Hk.
    + apply authors_line_in_section.
Qed.

(** ** Every run *)

Lemma process_search_idle (question : string) (max_papers : Z)
  (submitted : bool) (r : env) (s : state) :
  submitted && truthy question = false ->
  exists out,
    process_search question max_papers submitted r s
    = (Val tt, mkState (ui s ++ out) (calls s) (ticks s)).
Proof.
  intros H. unfold process_search. rewrite H.
  destruct (submitted && negb (truthy question)).
  - exists [Warning please_enter]. reflexivity.
  - exists []. rewrite app_nil_r. destruct s; reflexivity.
Qed.

Lemma process_search_busy (question : string) (max_papers : Z) (r : env)
  (s : state) :
  truthy question = true ->
  exists v block n,
    process_search question max_papers true r s
    = (v, mkState (ui s ++ [With searching block])
            (calls s ++ [(question, max_papers)]) n).
Proof.
  intros Hq.
  destruct (process_research_question r question max_papers)
    as [[| paper results] | e] eqn:Hsvc.
  - do 3 eexists. apply (process_search_empty r s _ _ Hq Hsvc).
  - do 3 eexists.
    apply (process_search_found r s _ _ Hq (paper :: results) Hsvc).
    discriminate.
  - destruct (isinstance_Exception (exc_type e)) eqn:Hexc; do 3 eexists.
    + apply (process_search_caught r s _ _ Hq e Hsvc Hexc).
    + apply (process_search_uncaught r s _ _ Hq e Hsvc Hexc).
Qed.

Lemma sidebar_panel_ui (r : env) (s : state) :
  exists body, ui (snd (sidebar_panel r s)) = (ui s ++ [With sidebar body])%list.
Proof.
  unfold sidebar_panel, with_block.
  match goal with
  | |- context [let '(_, _) := ?body in _] => destruct body as [v s']
  end.
  eexists. reflexivity.
Qed.

(** The service log of a run: one invocation, with the question as typed
    and the selected count, exactly when a non-empty question was
    submitted. *)
Lemma run_calls (r : env) :
  calls (snd (run r))
  = if submitted_of r && truthy (question_of r)
    then [(question_of r, max_papers_of r)] else [].
Proof.
  unfold run. rewrite main_unfold.
  destruct (submitted_of r && truthy (question_of r)) eqn:E.
  - apply andb_true_iff in E. destruct E as [Hsub Hq]. rewrite Hsub.
    destruct (process_search_busy (question_of r) (max_papers_of r) r
                (mkState (ui initial ++ page_head ++ [form_block])
                   (calls initial) (ticks initial)) Hq)
      as (v & block & n & ->).
    destruct v as [[] | e]; [ rewrite sidebar_panel_calls | ]; reflexivity.
  - destruct (process_search_idle (question_of r) (max_papers_of r)
                (submitted_of r) r
                (mkState (ui initial ++ page_head ++ [form_block])
                   (calls initial) (ticks initial)) E)
      as (out & ->).
    rewrite sidebar_panel_calls. reflexivity.
Qed.

(** Every run starts by rendering the heading and the form. *)
Lemma run_ui_prefix (r : env) :
  exists rest, ui (snd (run r)) = (page_head ++ [form_block] ++ rest)%list.
Proof.
  unfold run. rewrite main_unfold. cbn [initial ui calls ticks app].
  destruct (submitted_of r && truthy (question_of r)) eqn:E.
  - apply andb_true_iff in E. destruct E as [Hsub Hq]. rewrite Hsub.
    destruct (process_search_busy (question_of r) (max_papers_of r) r
                (mkState (page_head ++ [form_block]) [] 0) Hq)
      as (v & block & n & ->).
    destruct v as [[] | e].
    + match goal with
      | |- context [sidebar_panel r ?s0] =>
          destruct (sidebar_panel_ui r s0) as (body & ->)
      end.
      cbn [ui]. eexists. rewrite <- !app_assoc. reflexivity.
    + cbn [snd ui]. eexists. rewrite <- !app_assoc. reflexivity.
  - destruct (process_search_idle (question_of r) (max_papers_of r)
                (submitted_of r) r
                (mkState (page_head ++ [form_block]) [] 0) E)
      as (out & ->).
    match goal with
    | |- context [sidebar_panel r ?s0] =>
        destruct (sidebar_panel_ui r s0) as (body & ->)
    end.
    cbn [ui]. eexists. rewrite <- !app_assoc. reflexivity.
Qed.

Lemma selected_offered (choice : option nat) :
  In (st.selected [3; 5; 10; 15]%Z 1 choice) [3; 5; 10; 15]%Z.
Proof.
  destruct choice as [[| [| [| [| [| n]]]]] |]; cbn; auto.
Qed.

(** C9. The selector is rendered with exactly the options 3, 5, 10 and 15
    and with the second of them, 5, preselected; the value it hands to the
    script is 5 while untouched, the picked option otherwise, and always one
    of the four, so no other value ever reaches the research service. *)
Theorem max_papers_selector (r : env) :
  In (Selectbox "Max Papers:" [3; 5; 10; 15]%Z 1 "Number of papers to return")
    (all_elements (ui (snd (run r)))) /\
  (forall s : state,
     fst (search_form r s)
     = Val (question_of r, max_papers_of r, submitted_of r)) /\
  In (max_papers_of r) [3; 5; 10; 15]%Z /\
  (selectbox_choice (sess r) = None -> max_papers_of r = 5%Z) /\
  (forall i v,
     selectbox_choice (sess r) = Some i ->
     nth_error [3; 5; 10; 15]%Z i = Some v ->
     max_papers_of r = v) /\
  (forall question n,
     In (question, n) (calls (snd (run r))) -> In n [3; 5; 10; 15]%Z).
Proof.
  split; [ | split; [ | split; [ | split; [ | split ] ] ] ].
  - destruct (run_ui_prefix r) as (rest & ->).
    rewrite !all_elements_app. apply in_or_app. right. apply in_or_app. left.
    cbn. do 5 right. left. reflexivity.
  - intros s. rewrite search_form_run. reflexivity.
  - apply selected_offered.
  - unfold max_papers_of. intros ->. reflexivity.
  - unfold max_papers_of. intros i v -> Hv.
    destruct i as [| [| [| [| i]]]]; cbn in Hv |- *;
      try (injection Hv as <-; reflexivity).
    destruct i; discriminate.
  - intros question n Hin. rewrite run_calls in Hin.
    destruct (submitted_of r && truthy (question_of r)); [ | destruct Hin ].
    destruct Hin as [H | []]. injection H as _ <-. apply selected_offered.
Qed.

(** ** Whitespace questions *)

Lemma paper_section_warnings (r : env) (i : nat) (paper : PaperResult)
  (w : string) :
  In (Warning w) (flatten (paper_section r i paper)) ->
  w = relevance_text r (relevance_score paper).
Proof.
  unfold paper_section. rewrite badge_rendered_eq.
  destruct (ge _ 8); [ | destruct (ge _ 6) ];
    cbn [flatten flat_map app]; intros H;
    repeat (destruct H as [H | H]; try discriminate H);
    try (exfalso; exact H).
  injection H as <-. reflexivity.
Qed.

Lemma paper_sections_warnings (r : env) (results : list PaperResult)
  (start : nat) (w : string) :
  In (Warning w) (all_elements (paper_sections r results start)) ->
  exists score, w = relevance_text r score.
Proof.
  unfold all_elements, paper_sections. intros H.
  apply in_flat_map in H. destruct H as (sec & Hsec & Hin).
  apply in_map_iff in Hsec. destruct Hsec as ([i paper] & <- & _).
  exists (relevance_score paper).
  exact (paper_section_warnings r i paper w Hin).
Qed.

Lemma searched_run_no_validation_warning (r : env) :
  submitted_of r = true ->
  truthy (question_of r) = true ->
  ~ In (Warning please_enter) (all_elements (ui (snd (run r)))).
Proof.
  intros Hsub Hq.
  destruct (process_research_question r (question_of r) (max_papers_of r))
    as [[| paper results] | e] eqn:Hsvc.
  - rewrite (run_no_papers r Hsub Hq Hsvc). cbn [snd ui]. intros Hin.
    apply (proj1 (alert_in_page (Warning please_enter) _ eq_refl)) in Hin.
    rewrite all_elements_searching in Hin.
    destruct Hin as [H | [H | []]]; discriminate.
  - rewrite (run_found r Hsub Hq (paper :: results) Hsvc) by discriminate.
    cbn [snd ui]. intros Hin.
    apply (proj1 (alert_in_page (Warning please_enter) _ eq_refl)) in Hin.
    rewrite all_elements_searching in Hin.
    destruct Hin as [H | Hin]; [ discriminate | ].
    change (all_elements (Success ?m :: ?l))
      with (Success m :: all_elements l) in Hin.
    destruct Hin as [H | Hin]; [ discriminate | ].
    apply paper_sections_warnings in Hin. destruct Hin as (score & H).
    discriminate H.
  - destruct (isinstance_Exception (exc_type e)) eqn:Hexc.
    + rewrite (run_caught r Hsub Hq e Hsvc Hexc). cbn [snd ui]. intros Hin.
      apply (proj1 (alert_in_page (Warning please_enter) _ eq_refl)) in Hin.
      rewrite all_elements_searching in Hin.
      destruct Hin as [H | [H | [H | []]]]; discriminate.
    + rewrite (run_uncaught r Hsub Hq e Hsvc Hexc). cbn [snd ui]. intros Hin.
      assert (H : existsb is_alert
                    (all_elements
                       (page_head ++ [form_block] ++ [With searching []]))
                  = true)
        by (apply existsb_exists; exists (Warning please_enter);
            split; [ exact Hin | reflexivity ]).
      vm_compute in H. discriminate.
Qed.

(** C10. A submitted question that is not empty but is made of whitespace
    only (a single space, say) is searched like any other: the service is
    invoked once with the question exactly as typed, and the "Please enter
    a research question!" warning is not shown.  The warning appears for the
    empty string and for no other submitted question. *)
Theorem whitespace_question_searched (r : env) :
  submitted_of r = true ->
  (whitespace_only (question_of r) = true ->
   calls (snd (run r)) = [(question_of r, max_papers_of r)] /\
   ~ In (Warning "Please enter a research question!")
       (all_elements (ui (snd (run r))))) /\
  (In (Warning "Please enter a research question!")
     (all_elements (ui (snd (run r))))
   <-> question_of r = "") /\
  (question_of r <> "" ->
   calls (snd (run r)) = [(question_of r, max_papers_of r)]).
Proof.
  intros Hsub.
  assert (Hcalls : truthy (question_of r) = true ->
                   calls (snd (run r)) = [(question_of r, max_papers_of r)]).
  { intros Hq. rewrite run_calls, Hsub, Hq. reflexivity. }
  split; [ | split ].
  - unfold whitespace_only. intros Hws.
    apply andb_true_iff in Hws. destruct Hws as [Hq _].
    split; [ exact (Hcalls Hq) | ].
    exact (searched_run_no_validation_warning r Hsub Hq).
  - split.
    + intros Hin. destruct (question_of r) as [| c q] eqn:E; [ reflexivity | ].
      exfalso. apply (searched_run_no_validation_warning r Hsub).
      * rewrite E. reflexivity.
      * exact Hin.
    + intros Hq. apply (empty_question_shows_warning r Hsub Hq).
  - intros Hne. apply Hcalls.
    destruct (question_of r); [ congruence | reflexivity ].
Qed.

(** ** The claims that fail, at concrete sessions *)

(** C2 (as stated). A score of 11 is outside 0-10 and is rendered in the
    "success" tier, not in the "info" tier. *)
Lemma score_eleven_is_success :
  (10 < 11)%Z /\
  relevance_score paper_d = Int 11 /\
  tier_shown found_env (relevance_score paper_d) = Some TierSuccess /\
  tier_shown found_env (relevance_score paper_d) <> Some TierInfo /\
  In (Success "Relevance: 11/10") (all_elements (ui (snd (run found_env)))).
Proof.
  split; [ reflexivity | split; [ reflexivity | split; [ reflexivity | split ] ] ].
  - discriminate.
  - vm_compute. tauto.
Qed.

(** C4 (as stated). An [asyncio.CancelledError] raised during the service
    call derives from [BaseException] only and is not caught: it leaves the
    script, no error message and no hint are rendered. *)
Lemma cancelled_error_not_caught :
  submitted_of cancelled_env = true /\
  truthy (question_of cancelled_env) = true /\
  process_research_question cancelled_env (question_of cancelled_env)
    (max_papers_of cancelled_env) = Raises cancelled /\
  fst (run cancelled_env) = Exc cancelled /\
  (forall text, ~ In (Error text) (all_elements (ui (snd (run cancelled_env))))) /\
  ~ In (Write "Please check your API keys and try again.")
      (all_elements (ui (snd (run cancelled_env)))).
Proof.
  split; [ reflexivity | split; [ reflexivity | split; [ reflexivity | ] ] ].
  split; [ reflexivity | split ].
  - intros text Hin. vm_compute in Hin.
    repeat (destruct Hin as [Hin | Hin]; try discriminate Hin). exact Hin.
  - intros Hin. vm_compute in Hin.
    repeat (destruct Hin as [Hin | Hin]; try discriminate Hin). exact Hin.
Qed.

(** C7 (as stated). When the clock is set back during the call (readings
    10 then 9) the success message shows a negative duration. *)
Lemma clock_set_back_negative_duration :
  clock clock_set_back_env 1 < clock clock_set_back_env 0 /\
  format_float_1f
    (float_sub (clock clock_set_back_env 1) (clock clock_set_back_env 0))
  = "-1.0" /\
  In (Success "Found 1 relevant papers in -1.0 seconds")
    (all_elements (ui (snd (run clock_set_back_env)))).
Proof.
  split; [ reflexivity | split; [ reflexivity | ] ].
  vm_compute. tauto.
Qed.

(** ** The theorems at concrete sessions *)

Lemma relevance_tier_thresholds_at_samples :
  ((8 <= 9)%Z /\ tier_shown found_env (Int 9) = Some TierSuccess) /\
  ((6 <= 7 < 8)%Z /\ tier_shown found_env (Int 7) = Some TierWarning) /\
  ((4 < 6)%Z /\ tier_shown found_env (Int 4) = Some TierInfo) /\
  ((6 <= 15 # 2 /\ 15 # 2 < 8) /\
   tier_shown found_env (Float (Finite (15 # 2))) = Some TierWarning).
Proof.
  destruct (relevance_tier_thresholds found_env) as (HZ & HQ & _).
  assert (H9 : (8 <= 9)%Z) by lia.
  assert (H7 : (6 <= 7 < 8)%Z) by lia.
  assert (H4 : (4 < 6)%Z) by lia.
  assert (Hq : 6 <= 15 # 2 /\ 15 # 2 < 8)
    by (unfold Qle, Qlt; cbn; lia).
  split; [ split; [ exact H9 | exact (proj1 (HZ 9%Z) H9) ] | ].
  split; [ split; [ exact H7 | exact (proj1 (proj2 (HZ 7%Z)) H7) ] | ].
  split; [ split; [ exact H4 | exact (proj2 (proj2 (HZ 4%Z)) H4) ] | ].
  split; [ exact Hq | exact (proj1 (proj2 (HQ (15 # 2))) Hq) ].
Defined.

Lemma out_of_range_scores_at_samples :
  ((-1 < 0)%Z /\ tier_shown found_env (Int (-1)) = Some TierInfo) /\
  ((10 < 11)%Z /\ tier_shown found_env (Int 11) = Some TierSuccess) /\
  (21 # 2 > 10 /\
   tier_shown found_env (Float (Finite (21 # 2))) = Some TierSuccess).
Proof.
  destruct (out_of_range_scores found_env) as (Hneg & Hbig & _ & Hqbig & _).
  assert (H1 : (-1 < 0)%Z) by lia.
  assert (H2 : (10 < 11)%Z) by lia.
  assert (H3 : 10 < 21 # 2) by (unfold Qlt; cbn; lia).
  split; [ split; [ exact H1 | exact (Hneg (-1)%Z H1) ] | ].
  split; [ split; [ exact H2 | exact (Hbig 11%Z H2) ] | ].
  split; [ exact H3 | exact (Hqbig (21 # 2) H3) ].
Defined.

Lemma empty_question_warns_at_sample :
  (submitted_of empty_question_env = true /\
   question_of empty_question_env = "") /\
  calls (snd (run empty_question_env)) = [] /\
  In (Warning "Please enter a research question!")
    (all_elements (ui (snd (run empty_question_env)))).
Proof.
  split; [ split; reflexivity | ].
  exact (proj2 (empty_question_warns empty_question_env eq_refl eq_refl)).
Defined.

Lemma service_exception_caught_at_sample :
  isinstance_Exception (exc_type invalid_api_key) = true /\
  fst (run failing_env) = Val tt /\
  In (Error "Error: Invalid API key")
    (all_elements (ui (snd (run failing_env)))) /\
  In (Write "Please check your API keys and try again.")
    (all_elements (ui (snd (run failing_env)))) /\
  sections (ui (snd (run failing_env))) = [].
Proof.
  split; [ reflexivity | ].
  exact (service_exception_caught failing_env invalid_api_key
           eq_refl eq_refl eq_refl eq_refl).
Defined.

Lemma empty_results_warn_at_sample :
  process_research_question no_papers_env (question_of no_papers_env)
    (max_papers_of no_papers_env) = Returns [] /\
  In (Warning
        "No papers found. Try rephrasing your question or using different keywords.")
    (all_elements (ui (snd (run no_papers_env)))) /\
  sections (ui (snd (run no_papers_env))) = [] /\
  (forall text, ~ In (Success text) (all_elements (ui (snd (run no_papers_env))))).
Proof.
  split; [ reflexivity | ].
  exact (proj2 (empty_results_warn no_papers_env eq_refl eq_refl eq_refl)).
Defined.

Lemma four_papers_nonempty : four_papers <> [].
Proof. discriminate. Defined.

Lemma sections_in_order_at_sample :
  four_papers <> [] /\
  List.length (sections (ui (snd (run found_env)))) = 4%nat /\
  nth_error (sections (ui (snd (run found_env)))) 3
  = Some ("4. Screens", false) /\
  map snd (sections (ui (snd (run found_env)))) = [true; true; true; false].
Proof.
  split; [ exact four_papers_nonempty | ].
  destruct (sections_in_order found_env four_papers eq_refl eq_refl eq_refl
              four_papers_nonempty) as (Hlen & Hnth & Hflags).
  split; [ exact Hlen | split; [ exact (Hnth 3%nat paper_d eq_refl) | exact Hflags ] ].
Defined.

Lemma found_summary_shown_at_sample :
  clock found_env 0 <= clock found_env 1 /\
  In (Success "Found 4 relevant papers in 2.5 seconds")
    (all_elements (ui (snd (run found_env)))) /\
  (float_sub (clock found_env 1) (clock found_env 0) = PosInf \/
   exists d,
     float_sub (clock found_env 1) (clock found_env 0) = Finite d /\
     0 <= d /\
     (0 <= round_tenths (Qabs d))%Z /\
     "2.5"
     = str_int (round_tenths (Qabs d) / 10) ++ "."
         ++ str_int (round_tenths (Qabs d) mod 10)).
Proof.
  assert (Hmono : clock found_env 0 <= clock found_env 1)
    by (unfold Qle; cbn; lia).
  destruct (found_summary_shown found_env four_papers eq_refl eq_refl eq_refl
              four_papers_nonempty) as (Hin & _ & Hsign).
  split; [ exact Hmono | split; [ exact Hin | exact (Hsign Hmono) ] ].
Defined.

Lemma first_five_authors_at_sample :
  nth_error four_papers 0 = Some paper_a /\
  List.length (authors paper_a) = 7%nat /\
  In (Write "**Authors:** A, B, C, D, E")
    (all_elements (ui (snd (run found_env)))).
Proof.
  split; [ reflexivity | split; [ reflexivity | ] ].
  destruct (first_five_authors found_env paper_a) as (_ & _ & _ & _ & _ & Hrun).
  exact (Hrun four_papers 0%nat eq_refl eq_refl eq_refl eq_refl).
Defined.

Lemma max_papers_selector_at_sample :
  selectbox_choice (sess found_env) = None /\
  max_papers_of found_env = 5%Z /\
  calls (snd (run found_env)) = [("sleep and memory", 5%Z)] /\
  In 5%Z [3; 5; 10; 15]%Z.
Proof.
  destruct (max_papers_selector found_env) as (_ & _ & _ & Hdefault & _ & Hcalls).
  split; [ reflexivity | split; [ exact (Hdefault eq_refl) | split ] ].
  - reflexivity.
  - exact (Hcalls "sleep and memory" 5%Z (or_introl eq_refl)).
Defined.

Lemma whitespace_question_searched_at_sample :
  (submitted_of blank_question_env = true /\
   whitespace_only (question_of blank_question_env) = true) /\
  calls (snd (run blank_question_env)) = [(" ", 5%Z)] /\
  ~ In (Warning "Please enter a research question!")
      (all_elements (ui (snd (run blank_question_env)))).
Proof.
  split; [ split; reflexivity | ].
  exact (proj1 (whitespace_question_searched blank_question_env eq_refl) eq_refl).
Defined.

(** ** Runs without a search *)

Lemma bind_run {A B} (m : M A) (k : A -> M B) (r : env) (s : state) :
  bind m k r s
  = match m r s with
    | (Val a, s') => k a r s'
    | (Exc e, s') => (Exc e, s')
    end.
Proof. reflexivity. Qed.

Lemma buttons_until_unclicked (key : string) (l : list string) :
  existsb (String.eqb key) l = false ->
  buttons_until key l = map (fun example => Button example example) l.
Proof.
  induction l as [| x l IH]; cbn [existsb buttons_until map]; intros H;
    [ reflexivity | ].
  apply orb_false_iff in H. destruct H as [Hx Hl].
  rewrite Hx, (IH Hl). reflexivity.
Qed.

(** The example loop, for any list of examples. *)
Lemma example_loop_run (key : string) (r : env) :
  event (sess r) = ButtonClicked key ->
  forall (l : list string) (s : state),
    for_each l (fun example =>
      clicked <- st.button example example ;;
      if clicked then st.rerun else ret tt) r s
    = (if existsb (String.eqb key) l then Exc rerun_exception else Val tt,
       mkState (ui s ++ buttons_until key l) (calls s) (ticks s)).
Proof.
  intros Hev. induction l as [| x l IH]; intros s.
  - cbn. rewrite app_nil_r. destruct s; reflexivity.
  - cbn [for_each existsb buttons_until]. rewrite bind_run.
    unfold st.button at 1. run_step. rewrite Hev.
    destruct (String.eqb key x) eqn:E; cbn [orb].
    + reflexivity.
    + rewrite IH. cbn [ui calls ticks]. rewrite <- app_assoc. reflexivity.
Qed.

Lemma sidebar_panel_clicked (key : string) (r : env) (s : state) :
  event (sess r) = ButtonClicked key ->
  sidebar_panel r s
  = if existsb (String.eqb key) example_questions
    then (Exc rerun_exception,
          mkState (ui s ++ [sidebar_until key]) (calls s) (ticks s))
    else (Val tt, mkState (ui s ++ [sidebar_block]) (calls s) (ticks s)).
Proof.
  intros Hev. unfold sidebar_panel, with_block.
  unfold st.header at 1 2, st.write at 1.
  do 3 (rewrite bind_run; unfold emit at 1; cbv beta iota).
  rewrite bind_run, (example_loop_run key r Hev).
  cbn [ui calls ticks app].
  destruct (existsb (String.eqb key) example_questions) eqn:E.
  - reflexivity.
  - rewrite (buttons_until_unclicked key example_questions E). reflexivity.
Qed.

Lemma process_search_unsubmitted (question : string) (max_papers : Z)
  (r : env) (s : state) :
  process_search question max_papers false r s = (Val tt, s).
Proof. reflexivity. Qed.

Lemma in_examples_existsb (key : string) :
  In key example_questions <->
  existsb (String.eqb key) example_questions = true.
Proof.
  rewrite existsb_exists. split.
  - intros H. exists key. split; [ exact H | apply String.eqb_refl ].
  - intros (x & Hx & E). apply String.eqb_eq in E. subst x. exact Hx.
Qed.

Lemma run_unsubmitted (r : env) :
  submitted_of r = false ->
  run r = sidebar_panel r (mkState (page_head ++ [form_block]) [] 0).
Proof.
  intros Hsub. unfold run. rewrite main_unfold, Hsub.
  rewrite process_search_unsubmitted. reflexivity.
Qed.

Lemma button_click_unsubmitted (r : env) (key : string) :
  event (sess r) = ButtonClicked key -> submitted_of r = false.
Proof. unfold submitted_of. intros ->. reflexivity. Qed.

Lemma unsubmitted_static_page (r : env) :
  submitted_of r = false ->
  (forall key, event (sess r) = ButtonClicked key ->
               ~ In key example_questions) ->
  run r
  = (Val tt, mkState (page_head ++ [form_block] ++ [sidebar_block]) [] 0).
Proof.
  intros Hsub Hkey. rewrite (run_unsubmitted r Hsub).
  destruct (event (sess r)) as [| | key] eqn:E.
  - rewrite sidebar_panel_run by (intros key; rewrite E; discriminate).
    cbn [ui calls ticks]. rewrite <- app_assoc. reflexivity.
  - unfold submitted_of in Hsub. rewrite E in Hsub. discriminate.
  - rewrite (sidebar_panel_clicked key r _ E).
    destruct (existsb (String.eqb key) example_questions) eqn:Hex.
    + exfalso. apply (Hkey key eq_refl). apply in_examples_existsb. exact Hex.
    + cbn [ui calls ticks]. rewrite <- app_assoc. reflexivity.
Qed.

(** X1. A run that no submission triggered (a page load, or a click that
    is not on an example button) renders the heading, the form and the full
    side panel and nothing else, whatever the question field holds: the
    service is not invoked and the clock is not read. *)
Theorem unsubmitted_run_is_static (r : env) :
  submitted_of r = false ->
  (forall key, event (sess r) = ButtonClicked key ->
               ~ In key example_questions) ->
  fst (run r) = Val tt /\
  ui (snd (run r)) = (page_head ++ [form_block] ++ [sidebar_block])%list /\
  calls (snd (run r)) = [] /\
  ticks (snd (run r)) = 0%nat /\
  (forall e, In e (all_elements (ui (snd (run r)))) -> is_alert e = false).
Proof.
  intros Hsub Hkey.
  rewrite (unsubmitted_static_page r Hsub Hkey). cbn [fst snd ui calls ticks].
  split; [ reflexivity | split; [ reflexivity | split; [ reflexivity | ] ] ].
  split; [ reflexivity | ].
  intros e Hin. vm_compute in Hin.
  repeat (destruct Hin as [Hin | Hin]; [ subst e; reflexivity | ]).
  destruct Hin.
Qed.

(** X2. A click on one of the example buttons stops the run at that
    button with [st.rerun()]: the buttons up to the clicked one are
    rendered, the "About" part is not, the question field is not fed to
    anything and the service is not invoked. *)
Theorem example_click_reruns (r : env) (key : string) :
  event (sess r) = ButtonClicked key ->
  In key example_questions ->
  run r
  = (Exc rerun_exception,
     mkState (page_head ++ [form_block] ++ [sidebar_until key]) [] 0) /\
  In (Button key key) (all_elements (ui (snd (run r)))) /\
  ~ In (Header "About") (all_elements (ui (snd (run r)))).
Proof.
  intros Hev Hin.
  assert (Hrun : run r
                 = (Exc rerun_exception,
                    mkState (page_head ++ [form_block] ++ [sidebar_until key])
                      [] 0)).
  { rewrite (run_unsubmitted r (button_click_unsubmitted r key Hev)).
    rewrite (sidebar_panel_clicked key r _ Hev).
    rewrite (proj1 (in_examples_existsb key) Hin).
    cbn [ui calls ticks]. rewrite <- app_assoc. reflexivity. }
  rewrite Hrun. cbn [snd ui]. split; [ reflexivity | ].
  cbn in Hin.
  destruct Hin as [<- | [<- | [<- | [<- | [<- | []]]]]];
    (split; [ vm_compute; tauto | ]);
    intros H; vm_compute in H;
    repeat (destruct H as [H | H]; try discriminate H); exact H.
Qed.

(** ** Searches *)

Lemma sidebar_panel_ticks (r : env) (s : state) :
  ticks (snd (sidebar_panel r s)) = ticks s.
Proof.
  destruct (event (sess r)) as [| | key] eqn:E.
  - rewrite sidebar_panel_run by (intros key; rewrite E; discriminate).
    reflexivity.
  - rewrite sidebar_panel_run by (intros key; rewrite E; discriminate).
    reflexivity.
  - rewrite (sidebar_panel_clicked key r s E).
    destruct (existsb _ _); reflexivity.
Qed.

Lemma process_search_ticks (question : string) (max_papers : Z) (r : env)
  (s : state) :
  truthy question = true ->
  ticks (snd (process_search question max_papers true r s))
  = (ticks s + readings_of (process_research_question r question max_papers))%nat.
Proof.
  intros Hq.
  destruct (process_research_question r question max_papers)
    as [[| paper results] | e] eqn:Hsvc; cbn [readings_of].
  - rewrite (process_search_empty r s _ _ Hq Hsvc). cbn [snd ticks searched].
    lia.
  - rewrite (process_search_found r s _ _ Hq (paper :: results) Hsvc)
      by discriminate.
    cbn [snd ticks searched]. lia.
  - destruct (isinstance_Exception (exc_type e)) eqn:Hexc.
    + rewrite (process_search_caught r s _ _ Hq e Hsvc Hexc).
      cbn [snd ticks searched]. lia.
    + rewrite (process_search_uncaught r s _ _ Hq e Hsvc Hexc).
      cbn [snd ticks searched]. lia.
Qed.

(** X3. In every run the service is invoked at most once, and exactly
    when a non-empty question was submitted, with the question as typed and
    the selected count; the clock is read twice when that call returns, once
    when it raises, and not at all without a search.  There is no retry. *)
Theorem one_search_per_run (r : env) :
  let searching_now := submitted_of r && truthy (question_of r) in
  calls (snd (run r))
  = (if searching_now then [(question_of r, max_papers_of r)] else []) /\
  ticks (snd (run r))
  = (if searching_now
     then readings_of
            (process_research_question r (question_of r) (max_papers_of r))
     else 0%nat).
Proof.
  intros searching_now. subst searching_now.
  split; [ apply run_calls | ].
  unfold run. rewrite main_unfold.
  destruct (submitted_of r && truthy (question_of r)) eqn:E.
  - apply andb_true_iff in E. destruct E as [Hsub Hq]. rewrite Hsub.
    match goal with
    | |- context [process_search ?q ?n true r ?s0] =>
        pose proof (process_search_ticks q n r s0 Hq) as Hticks;
        destruct (process_search q n true r s0) as [[[] | e] s1] eqn:Hrun
    end.
    + rewrite sidebar_panel_ticks. exact Hticks.
    + exact Hticks.
  - destruct (process_search_idle (question_of r) (max_papers_of r)
                (submitted_of r) r
                (mkState (ui initial ++ page_head ++ [form_block])
                   (calls initial) (ticks initial)) E)
      as (out & ->).
    rewrite sidebar_panel_ticks. reflexivity.
Qed.

(** ** Message boxes *)

Lemma alerts_app (a b : list element) :
  alerts (a ++ b) = (alerts a ++ alerts b)%list.
Proof. unfold alerts. rewrite all_elements_app. apply filter_app. Qed.

Lemma alerts_page (middle : list element) :
  alerts (page middle) = alerts middle.
Proof.
  unfold page. rewrite !alerts_app.
  change (alerts page_head) with (@nil element).
  change (alerts [form_block]) with (@nil element).
  change (alerts [sidebar_block]) with (@nil element).
  cbn [app]. apply app_nil_r.
Qed.

Lemma alerts_searching (block : list element) :
  alerts [With searching block] = alerts block.
Proof. unfold alerts. rewrite all_elements_searching. reflexivity. Qed.

Lemma alerts_paper_section (r : env) (i : nat) (paper : PaperResult) :
  alerts [paper_section r i paper] = badge_rendered r (relevance_score paper).
Proof.
  unfold alerts, all_elements, paper_section. rewrite badge_rendered_eq.
  destruct (ge _ 8); [ reflexivity | destruct (ge _ 6); reflexivity ].
Qed.

Lemma alerts_paper_sections (r : env) (results : list PaperResult) :
  forall start,
    alerts (paper_sections r results start)
    = flat_map (fun paper => badge_rendered r (relevance_score paper)) results.
Proof.
  induction results as [| paper results IH]; intros start; [ reflexivity | ].
  change (paper_sections r (paper :: results) start)
    with ([paper_section r start paper] ++ paper_sections r results (S start))%list.
  rewrite alerts_app, alerts_paper_section, IH. reflexivity.
Qed.

(** X5. An exception of the service call that is not an instance of
    [Exception] leaves [main]: the run ends with that exception after one
    service call, with an empty search block, no message box at all and no
    side panel. *)
Theorem base_exception_propagates (r : env) (e : exception) :
  submitted_of r = true ->
  truthy (question_of r) = true ->
  process_research_question r (question_of r) (max_papers_of r) = Raises e ->
  isinstance_Exception (exc_type e) = false ->
  fst (run r) = Exc e /\
  ui (snd (run r)) = (page_head ++ [form_block] ++ [With searching []])%list /\
  calls (snd (run r)) = [(question_of r, max_papers_of r)] /\
  alerts (ui (snd (run r))) = [] /\
  (forall body, ~ In (With sidebar body) (all_elements (ui (snd (run r))))).
Proof.
  intros Hsub Hq Hsvc Hexc. rewrite (run_uncaught r Hsub Hq e Hsvc Hexc).
  cbn [fst snd ui calls].
  split; [ reflexivity | split; [ reflexivity | split; [ reflexivity | ] ] ].
  split; [ reflexivity | ].
  intros body H. vm_compute in H.
  repeat (destruct H as [H | H]; try discriminate H). exact H.
Qed.

(** X6. After a search that found papers the message boxes of the page
    are the success summary followed by one relevance badge per paper, in
    the order of the papers, and nothing else: N + 1 boxes for N papers. *)
Theorem found_run_message_boxes (r : env) (results : list PaperResult) :
  submitted_of r = true ->
  truthy (question_of r) = true ->
  process_research_question r (question_of r) (max_papers_of r)
  = Returns results ->
  results <> [] ->
  alerts (ui (snd (run r)))
  = Success ("Found " ++ str_nat (List.length results)
              ++ " relevant papers in "
              ++ format_float_1f (float_sub (clock r 1) (clock r 0))
              ++ " seconds")
      :: flat_map (fun paper => badge_rendered r (relevance_score paper))
           results /\
  List.length (alerts (ui (snd (run r)))) = S (List.length results) /\
  (forall k paper,
     nth_error results k = Some paper ->
     exists text,
       nth_error (alerts (ui (snd (run r)))) (S k)
       = Some ((if ge (relevance_score paper) 8 then Success
                else if ge (relevance_score paper) 6 then Warning
                else Info) text)).
Proof.
  intros Hsub Hq Hsvc Hne.
  assert (Hflat : forall l : list PaperResult,
             flat_map (fun paper => badge_rendered r (relevance_score paper)) l
             = map (fun paper =>
                      (if ge (relevance_score paper) 8 then Success
                       else if ge (relevance_score paper) 6 then Warning
                       else Info) (relevance_text r (relevance_score paper)))
                 l).
  { induction l as [| p l IH]; [ reflexivity | ].
    cbn [flat_map map]. rewrite IH, badge_rendered_eq. reflexivity. }
  assert (Halerts :
            alerts (ui (snd (run r)))
            = Success (found_summary (List.length results)
                         (float_sub (clock r 1) (clock r 0)))
                :: flat_map
                     (fun paper => badge_rendered r (relevance_score paper))
                     results).
  { rewrite (run_found r Hsub Hq results Hsvc Hne). cbn [snd ui].
    rewrite alerts_page, alerts_searching.
    change (alerts (Success ?m :: ?l)) with (Success m :: alerts l).
    rewrite alerts_paper_sections. reflexivity. }
  rewrite Halerts. split; [ reflexivity | split ].
  - rewrite Hflat. cbn [List.length]. rewrite length_map. reflexivity.
  - intros k paper Hk. rewrite Hflat. cbn [nth_error].
    rewrite nth_error_map, Hk. eexists. reflexivity.
Qed.

(** X7. The other outcomes of a submission show exactly one message box:
    the validation warning for an empty question, the "No papers found"
    warning for an empty answer, the error for a caught exception. *)
Theorem single_message_box (r : env) :
  submitted_of r = true ->
  (question_of r = "" ->
   alerts (ui (snd (run r))) = [Warning "Please enter a research question!"]) /\
  (truthy (question_of r) = true ->
   process_research_question r (question_of r) (max_papers_of r) = Returns [] ->
   alerts (ui (snd (run r)))
   = [Warning
        "No papers found. Try rephrasing your question or using different keywords."]) /\
  (forall e,
     truthy (question_of r) = true ->
     process_research_question r (question_of r) (max_papers_of r) = Raises e ->
     isinstance_Exception (exc_type e) = true ->
     alerts (ui (snd (run r))) = [Error ("Error: " ++ exc_str e)]).
Proof.
  intros Hsub. split; [ | split ].
  - intros Hq. rewrite (run_empty_question r Hsub Hq). cbn [snd ui].
    rewrite alerts_page. reflexivity.
  - intros Hq Hsvc. rewrite (run_no_papers r Hsub Hq Hsvc). cbn [snd ui].
    rewrite alerts_page, alerts_searching. reflexivity.
  - intros e Hq Hsvc Hexc. rewrite (run_caught r Hsub Hq e Hsvc Hexc).
    cbn [snd ui]. rewrite alerts_page, alerts_searching. reflexivity.
Qed.

(** ** The sections in detail *)

(** X8. After a search that found papers, the search block holds the
    summary and then one section per paper in the order received; the
    section of the k-th paper (from 0) shows, in this order: a 2:1 column
    pair with the authors and the [journal (year)] line on the left and the
    relevance badge on the right, the reason, the abstract, the PubMed link
    built from the paper's own URL, and a divider. *)
Theorem paper_details_rendered (r : env) (results : list PaperResult)
  (k : nat) (paper : PaperResult) :
  submitted_of r = true ->
  truthy (question_of r) = true ->
  process_research_question r (question_of r) (max_papers_of r)
  = Returns results ->
  nth_error results k = Some paper ->
  exists block,
    ui (snd (run r))
    = (page_head ++ [form_block] ++ [With searching block] ++ [sidebar_block])%list
    /\ List.length block = S (List.length results)
    /\ nth_error block (S k)
       = Some
           (With (expander (str_nat (S k) ++ ". " ++ title paper) (k <? 3)%nat)
              [ Columns [2; 1]%Z;
                With (column 1)
                  [ Write ("**Authors:** "
                            ++ join ", " (firstn 5 (authors paper)));
                    Write ("**Journal:** " ++ journal paper
                            ++ " (" ++ str_year (year paper) ++ ")") ];
                With (column 2) (badge_rendered r (relevance_score paper));
                Write ("**Why relevant:** " ++ relevance_reason paper);
                Write ("**Abstract:** " ++ abstract paper);
                Markdown ("[📖 View on PubMed](" ++ pubmed_url paper ++ ")");
                Divider ]).
Proof.
  intros Hsub Hq Hsvc Hk.
  assert (Hne : results <> []) by (destruct results, k; discriminate).
  rewrite (run_found r Hsub Hq results Hsvc Hne). cbn [snd ui].
  eexists. split; [ reflexivity | split ].
  - cbn [List.length]. unfold paper_sections.
    rewrite length_map, enumerate_length. reflexivity.
  - cbn [nth_error]. unfold paper_sections.
    rewrite nth_error_map, (enumerate_nth_error results 1 k paper Hk).
    reflexivity.
Qed.

(** ** Tiers are monotone *)

Lemma ge_value (n : number) (k : Z) (x : Q) :
  value_of n = Some x -> ge n k = Qle_bool (inject_Z k) x.
Proof.
  destruct n as [z | [q | | | |]]; cbn [value_of]; intros H;
    try discriminate H; injection H as <-; cbn [ge float_ge].
  - unfold Qle_bool, inject_Z. cbn [Qnum Qden].
    rewrite !Z.mul_1_r. reflexivity.
  - reflexivity.
  - unfold Qle_bool, inject_Z. cbn [Qnum Qden].
    rewrite Z.mul_1_r. reflexivity.
Qed.

Lemma ge_monotone (a b : number) (k : Z) (x y : Q) :
  value_of a = Some x -> value_of b = Some y -> x <= y ->
  ge a k = true -> ge b k = true.
Proof.
  intros Ha Hb Hxy. rewrite (ge_value a k x Ha), (ge_value b k y Hb).
  rewrite !Qle_bool_iff. intros H. exact (Qle_trans _ _ _ H Hxy).
Qed.

(** X9. The tier never goes down when the score goes up: for two scores
    with numeric values x <= y (integers and finite floats, mixed freely),
    the tier of the second is at least the tier of the first; so scores of
    equal value (7 and 7.0) get the same tier. *)
Theorem tier_monotone (r : env) (a b : number) (x y : Q) :
  value_of a = Some x ->
  value_of b = Some y ->
  x <= y ->
  exists ta tb,
    tier_shown r a = Some ta /\ tier_shown r b = Some tb /\
    (tier_rank ta <= tier_rank tb)%nat.
Proof.
  intros Ha Hb Hxy. rewrite !tier_shown_eq.
  do 2 eexists. split; [ reflexivity | split; [ reflexivity | ] ].
  pose proof (ge_monotone a b 8 x y Ha Hb Hxy) as H8.
  pose proof (ge_monotone a b 6 x y Ha Hb Hxy) as H6.
  destruct (ge a 8); [ rewrite (H8 eq_refl); cbn; lia | ].
  destruct (ge a 6).
  - rewrite (H6 eq_refl). destruct (ge b 8); cbn; lia.
  - destruct (ge b 8); [ cbn; lia | destruct (ge b 6); cbn; lia ].
Qed.

(** ** Short searches *)

Lemma format_1f_below_twentieth (d : Q) :
  0 <= d -> d < 1 # 20 -> format_1f d = "0.0".
Proof.
  intros H0 H1. rewrite (format_1f_unsigned d H0).
  assert (Hz : round_tenths (Qabs d) = 0%Z).
  { destruct d as [p q]. unfold Qle, Qlt in H0, H1. cbn [Qnum Qden] in H0, H1.
    unfold round_tenths, Qabs. cbn [Qnum Qden].
    rewrite Z.abs_eq by lia.
    rewrite Z.div_small, Z.mod_small by lia.
    replace (2 * (p * 10) ?= Zpos q)%Z with Lt; [ reflexivity | ].
    symmetry. apply Z.compare_lt_iff. lia. }
  rewrite Hz. reflexivity.
Qed.

Lemma div_half_even_near (num den : Z) :
  (0 < den)%Z ->
  (2 * div_half_even num den * den <= 2 * num + den)%Z.
Proof.
  intros Hd. unfold div_half_even.
  pose proof (Z.div_mod num den ltac:(lia)) as Hdm.
  pose proof (Z.mod_pos_bound num den Hd) as Hb.
  set (n := (num / den)%Z) in *. set (m := (num mod den)%Z) in *.
  destruct (Z.compare_spec (2 * m) den) as [E | E | E];
    [ destruct (Z.even n) | | ]; nia.
Qed.

(** A number of at most 0.049 lies below the binade of 1/16. *)
Lemma binade_small (p : Z) (q : positive) :
  (0 < p)%Z -> (1000 * p <= 49 * Zpos q)%Z -> (binade p q <= -5)%Z.
Proof.
  intros Hp Hsmall. unfold binade.
  pose proof (Z.log2_spec p Hp) as [Hpl Hpu].
  pose proof (Z.log2_spec (Zpos q) ltac:(lia)) as [Hql Hqu].
  pose proof (Z.log2_nonneg p) as Ha.
  pose proof (Z.log2_nonneg (Zpos q)) as Hb.
  set (a := Z.log2 p) in *. set (b := Z.log2 (Zpos q)) in *.
  assert (He0 : (a - b <= -4)%Z).
  { destruct (Z.le_gt_cases (a - b) (-4)) as [H | H]; [ exact H | exfalso ].
    assert (Hpow : (2 ^ b <= 2 ^ (a + 3))%Z)
      by (apply Z.pow_le_mono_r; lia).
    replace (a + 3)%Z with (Z.succ (Z.succ (Z.succ a))) in Hpow by lia.
    rewrite !Z.pow_succ_r in Hpow by lia.
    rewrite Z.pow_succ_r in Hqu by lia. lia. }
  destruct (0 <=? a - b)%Z eqn:E0; [ apply Z.leb_le in E0; lia | ].
  destruct (p * 2 ^ (- (a - b)) <? Zpos q)%Z eqn:Eb; [ lia | ].
  apply Z.ltb_ge in Eb.
  destruct (Z.eq_dec (a - b) (-4)) as [E4 | E4]; [ exfalso | lia ].
  rewrite E4 in Eb. change (2 ^ (- -4))%Z with 16%Z in Eb. lia.
Qed.

Lemma round_double_small (x : Q) :
  0 <= x -> x <= 49 # 1000 ->
  exists d, round_double x = Finite d /\ 0 <= d /\ d < 1 # 20.
Proof.
  intros H0 H1. destruct x as [p q].
  unfold Qle in H0, H1. cbn [Qnum Qden] in H0, H1.
  unfold round_double. cbn [Qnum Qden].
  replace (p <? 0)%Z with false by (symmetry; apply Z.ltb_ge; lia).
  rewrite Z.abs_eq by lia.
  destruct (p =? 0)%Z eqn:Ep;
    [ exists 0; split; [ reflexivity | split; [ apply Qle_refl | reflexivity ] ] | ].
  apply Z.eqb_neq in Ep.
  assert (Hp : (0 < p)%Z) by lia.
  pose proof (binade_small p q Hp ltac:(lia)) as He.
  unfold significand, scaled.
  assert (Hs : (quantum p q <= -57)%Z) by (unfold quantum; lia).
  assert (Hs' : (-1074 <= quantum p q)%Z) by (unfold quantum; lia).
  set (s := quantum p q) in *.
  replace (0 <=? s)%Z with false by (symmetry; apply Z.leb_gt; lia).
  assert (HK : (2 ^ 57 <= 2 ^ (- s))%Z) by (apply Z.pow_le_mono_r; lia).
  set (K := (2 ^ (- s))%Z) in *.
  assert (HK' : (1000 < K)%Z).
  { eapply Z.lt_le_trans; [ | exact HK ]. reflexivity. }
  pose proof (div_half_even_near (p * K) (Zpos q) ltac:(lia)) as Hnear.
  pose proof (div_half_even_nonneg (p * K) (Zpos q) ltac:(nia) ltac:(lia))
    as Hm0.
  set (m := div_half_even (p * K) (Zpos q)) in *.
  assert (Hm : (20 * m < K)%Z) by nia.
  destruct (m =? 0)%Z eqn:Em;
    [ exists 0; split; [ reflexivity | split; [ apply Qle_refl | reflexivity ] ] | ].
  apply Z.eqb_neq in Em.
  assert (Hlog : (Z.log2 m < - s)%Z).
  { apply Z.log2_lt_pow2; [ lia | ]. fold K. lia. }
  replace (1024 <=? Z.log2 m + s)%Z with false
    by (symmetry; apply Z.leb_gt; lia).
  eexists. split; [ reflexivity | ].
  unfold Qle, Qlt. cbn [Qnum Qden]. rewrite Z2Pos.id by lia.
  split; lia.
Qed.

(** X10. When the two clock readings around the service call are in order
    and at most 0.049 s apart, the summary of a search that found papers
    reads "in 0.0 seconds": the float difference stays below 0.05 and is
    printed as zero tenths. *)
Theorem quick_search_shows_zero (r : env) (results : list PaperResult) :
  submitted_of r = true ->
  truthy (question_of r) = true ->
  process_research_question r (question_of r) (max_papers_of r)
  = Returns results ->
  results <> [] ->
  clock r 0 <= clock r 1 ->
  clock r 1 - clock r 0 <= 49 # 1000 ->
  In (Success ("Found " ++ str_nat (List.length results)
                ++ " relevant papers in 0.0 seconds"))
    (all_elements (ui (snd (run r)))).
Proof.
  intros Hsub Hq Hsvc Hne Hmono Hquick.
  rewrite (run_found r Hsub Hq results Hsvc Hne). cbn [snd ui].
  apply in_page. right. rewrite all_elements_searching. right. left.
  assert (Hpos : 0 <= clock r 1 - clock r 0)
    by (apply (proj1 (Qle_minus_iff _ _)); exact Hmono).
  destruct (round_double_small _ Hpos Hquick) as (d & Hd & Hd0 & Hd1).
  unfold found_summary, float_sub. rewrite Hd. cbn [format_float_1f].
  rewrite (format_1f_below_twentieth d Hd0 Hd1). reflexivity.
Qed.

(** ** The shape of a completed page *)

(** X11. Every run that completes renders the heading, the form, at most
    one outcome element and then the full side panel; the outcome element is
    the validation warning or the search block. *)
Theorem completed_run_shape (r : env) :
  fst (run r) = Val tt ->
  exists middle,
    ui (snd (run r))
    = (page_head ++ [form_block] ++ middle ++ [sidebar_block])%list /\
    (middle = [] \/
     middle = [Warning "Please enter a research question!"] \/
     exists block,
       middle = [With (spinner "Searching PubMed and analyzing papers...")
                   block]).
Proof.
  intros Hval. destruct (submitted_of r) eqn:Hsub.
  - destruct (truthy (question_of r)) eqn:Hq.
    + destruct (process_research_question r (question_of r) (max_papers_of r))
        as [[| paper results] | e] eqn:Hsvc.
      * rewrite (run_no_papers r Hsub Hq Hsvc). cbn [snd ui].
        eexists. split; [ reflexivity | ]. right. right. eexists. reflexivity.
      * rewrite (run_found r Hsub Hq (paper :: results) Hsvc) by discriminate.
        cbn [snd ui].
        eexists. split; [ reflexivity | ]. right. right. eexists. reflexivity.
      * destruct (isinstance_Exception (exc_type e)) eqn:Hexc.
        -- rewrite (run_caught r Hsub Hq e Hsvc Hexc). cbn [snd ui].
           eexists. split; [ reflexivity | ]. right. right. eexists.
           reflexivity.
        -- rewrite (run_uncaught r Hsub Hq e Hsvc Hexc) in Hval.
           discriminate Hval.
    + assert (Hempty : question_of r = "")
        by (destruct (question_of r); [ reflexivity | discriminate Hq ]).
      rewrite (run_empty_question r Hsub Hempty). cbn [snd ui].
      eexists. split; [ reflexivity | ]. right. left. reflexivity.
  - exists []. split; [ | left; reflexivity ].
    destruct (event (sess r)) as [| | key] eqn:E.
    + rewrite unsubmitted_static_page; [ reflexivity | exact Hsub | ].
      intros key. rewrite E. discriminate.
    + unfold submitted_of in Hsub. rewrite E in Hsub. discriminate.
    + destruct (existsb (String.eqb key) example_questions) eqn:Hex.
      * rewrite (run_unsubmitted r Hsub), (sidebar_panel_clicked key r _ E), Hex
          in Hval.
        discriminate Hval.
      * rewrite unsubmitted_static_page; [ reflexivity | exact Hsub | ].
        intros key' Hk Hin. rewrite E in Hk. injection Hk as <-.
        apply in_examples_existsb in Hin. congruence.
Qed.

(** ** The further theorems at concrete sessions *)

Lemma page_load_env_unclicked :
  forall key, event (sess page_load_env) = ButtonClicked key ->
              ~ In key example_questions.
Proof. intros key H. discriminate H. Defined.

Lemma unsubmitted_run_is_static_at_sample :
  (submitted_of page_load_env = false /\
   question_of page_load_env = "typed but not submitted") /\
  fst (run page_load_env) = Val tt /\
  calls (snd (run page_load_env)) = [] /\
  ticks (snd (run page_load_env)) = 0%nat.
Proof.
  split; [ split; reflexivity | ].
  destruct (unsubmitted_run_is_static page_load_env eq_refl
              page_load_env_unclicked) as (Hval & _ & Hcalls & Hticks & _).
  split; [ exact Hval | split; [ exact Hcalls | exact Hticks ] ].
Defined.

Lemma caffeine_is_an_example :
  In "Does caffeine improve athletic performance?" example_questions.
Proof. right. right. left. reflexivity. Defined.

Lemma example_click_reruns_at_sample :
  event (sess example_click_env)
  = ButtonClicked "Does caffeine improve athletic performance?" /\
  fst (run example_click_env) = Exc rerun_exception /\
  calls (snd (run example_click_env)) = [] /\
  ~ In (Header "About") (all_elements (ui (snd (run example_click_env)))).
Proof.
  split; [ reflexivity | ].
  destruct (example_click_reruns example_click_env
              "Does caffeine improve athletic performance?" eq_refl
              caffeine_is_an_example) as (Hrun & _ & Habout).
  split; [ rewrite Hrun; reflexivity | split; [ rewrite Hrun; reflexivity | ] ].
  exact Habout.
Defined.

Lemma base_exception_propagates_at_sample :
  isinstance_Exception (exc_type cancelled) = false /\
  fst (run cancelled_env) = Exc cancelled /\
  alerts (ui (snd (run cancelled_env))) = [].
Proof.
  split; [ reflexivity | ].
  destruct (base_exception_propagates cancelled_env cancelled
              eq_refl eq_refl eq_refl eq_refl) as (Hexc & _ & _ & Hal & _).
  split; [ exact Hexc | exact Hal ].
Defined.

Lemma found_run_message_boxes_at_sample :
  four_papers <> [] /\
  alerts (ui (snd (run found_env)))
  = [ Success "Found 4 relevant papers in 2.5 seconds";
      Success "Relevance: 9/10";
      Warning "Relevance: float/10";
      Info "Relevance: 4/10";
      Success "Relevance: 11/10" ].
Proof.
  split; [ exact four_papers_nonempty | ].
  exact (proj1 (found_run_message_boxes found_env four_papers
                  eq_refl eq_refl eq_refl four_papers_nonempty)).
Defined.

Lemma single_message_box_at_samples :
  (question_of empty_question_env = "" /\
   alerts (ui (snd (run empty_question_env)))
   = [Warning "Please enter a research question!"]) /\
  (process_research_question no_papers_env (question_of no_papers_env)
     (max_papers_of no_papers_env) = Returns [] /\
   alerts (ui (snd (run no_papers_env)))
   = [Warning
        "No papers found. Try rephrasing your question or using different keywords."]) /\
  (isinstance_Exception (exc_type invalid_api_key) = true /\
   alerts (ui (snd (run failing_env))) = [Error "Error: Invalid API key"]).
Proof.
  split; [ split; [ reflexivity | ] | split; (split; [ reflexivity | ]) ].
  - exact (proj1 (single_message_box empty_question_env eq_refl) eq_refl).
  - exact (proj1 (proj2 (single_message_box no_papers_env eq_refl))
             eq_refl eq_refl).
  - exact (proj2 (proj2 (single_message_box failing_env eq_refl))
             invalid_api_key eq_refl eq_refl eq_refl).
Defined.

Lemma paper_details_rendered_at_sample :
  nth_error four_papers 1 = Some paper_b /\
  exists block,
    In (With searching block) (ui (snd (run found_env))) /\
    nth_error block 2
    = Some
        (With (expander "2. Sleep and recall" true)
           [ Columns [2; 1]%Z;
             With (column 1)
               [ Write "**Authors:** H, I"; Write "**Journal:** Sleep (2019)" ];
             With (column 2) [ Warning "Relevance: float/10" ];
             Write "**Why relevant:** related";
             Write "**Abstract:** abs";
             Markdown "[📖 View on PubMed](https://pubmed/2)";
             Divider ]).
Proof.
  split; [ reflexivity | ].
  destruct (paper_details_rendered found_env four_papers 1 paper_b
              eq_refl eq_refl eq_refl eq_refl) as (block & Hui & _ & Hnth).
  exists block. split; [ | exact Hnth ].
  rewrite Hui. apply in_or_app. right. apply in_or_app. right.
  left. reflexivity.
Defined.

Lemma tier_monotone_at_sample :
  (inject_Z 7 <= 15 # 2) /\
  exists ta tb,
    tier_shown found_env (Int 7) = Some ta /\
    tier_shown found_env (Float (Finite (15 # 2))) = Some tb /\
    (tier_rank ta <= tier_rank tb)%nat.
Proof.
  assert (H : inject_Z 7 <= 15 # 2) by (unfold Qle; cbn; lia).
  split; [ exact H | ].
  exact (tier_monotone found_env (Int 7) (Float (Finite (15 # 2)))
           (inject_Z 7) (15 # 2) eq_refl eq_refl H).
Defined.

Lemma quick_search_shows_zero_at_sample :
  (clock quick_env 0 <= clock quick_env 1 /\
   clock quick_env 1 - clock quick_env 0 <= 49 # 1000) /\
  In (Success "Found 4 relevant papers in 0.0 seconds")
    (all_elements (ui (snd (run quick_env)))).
Proof.
  assert (H0 : clock quick_env 0 <= clock quick_env 1)
    by (unfold Qle; cbn; lia).
  assert (H1 : clock quick_env 1 - clock quick_env 0 <= 49 # 1000)
    by (unfold Qle; cbn; lia).
  split; [ split; [ exact H0 | exact H1 ] | ].
  exact (quick_search_shows_zero quick_env four_papers eq_refl eq_refl eq_refl
           four_papers_nonempty H0 H1).
Defined.

Lemma completed_run_shape_at_sample :
  fst (run no_papers_env) = Val tt /\
  exists middle,
    ui (snd (run no_papers_env))
    = (page_head ++ [form_block] ++ middle ++ [sidebar_block])%list /\
    (List.length middle <= 1)%nat.
Proof.
  split; [ reflexivity | ].
  destruct (completed_run_shape no_papers_env eq_refl)
    as (middle & Hui & [-> | [-> | (block & ->)]]);
    eexists; (split; [ exact Hui | cbn; lia ]).
Defined.
